(** * VolumeMaskAndSlice: a model of [main] and the properties of its mask

    The program reads a volume, rasterises a cylindrical byte mask with a
    triple loop, wires a reslice / shift-scale / multiply chain for a masked
    2D slice, configures a GPU volume mapper and starts the interactor.

    [main] is embedded as a program in a state-and-failure monad that also
    records, in program order, every toolkit call made as a statement and
    every store through [ptr].  The toolkit itself (VTK) is not part of the
    repository: what the program relies on is either modelled after the
    toolkit's documented behaviour and marked as such, or kept abstract. *)

From Stdlib Require Import ZArith List Lia Bool String QArith Qcanon.
Import ListNotations.
Local Open Scope Z_scope.

(** ** Arithmetic on [double]

    The program's arithmetic on [double] is kept behind an interface, so
    that what is proved of the program holds for any interpretation of
    the operations, IEEE-754 included; the only law of the interface is that
    [a == b] excludes [a > b], and a theorem that needs another law of
    doubles states it as a hypothesis.  A literal with an integral value (2.0, 50, 255.0) is
    the conversion of that integer, which is exact. *)

Class DoubleOps (D : Type) := {
  d_of_int : Z -> D;            (* conversion int -> double *)
  d_half : D;                   (* the literal 0.5 *)
  d_add : D -> D -> D;
  d_sub : D -> D -> D;
  d_mul : D -> D -> D;
  d_div : D -> D -> D;
  d_gtb : D -> D -> bool;       (* a > b *)
  d_eqb : D -> D -> bool;       (* a == b *)
  d_gtb_eqb : forall a b, d_eqb a b = true -> d_gtb a b = false
}.

(** 32-bit [int] addition, two's complement wrap-around written out. *)
Definition wrap_int (n : Z) : Z := (n + 2147483648) mod 4294967296 - 2147483648.
Definition int_add (a b : Z) : Z := wrap_int (a + b).

(** A byte stored through a [char *], read back as [unsigned char]. *)
Definition to_uchar (v : Z) : Z := v mod 256.

Definition EXIT_SUCCESS : Z := 0.

Inductive ScalarType :=
| VTK_CHAR | VTK_SIGNED_CHAR | VTK_UNSIGNED_CHAR | VTK_SHORT | VTK_UNSIGNED_SHORT
| VTK_INT | VTK_UNSIGNED_INT | VTK_LONG | VTK_UNSIGNED_LONG | VTK_FLOAT | VTK_DOUBLE.

(** The [char *] of line 61: null, or an address counted in bytes from
    the start of the mask's buffer. *)
Inductive Ptr := Null | Off (k : Z).

(** Toolkit calls made as statements, and stores through [ptr]. *)
Inductive Event :=
| Call (receiver method : string)
| Store (p : Ptr) (v : Z).

(** The data objects a filter input can refer to. *)
Inductive DataRef :=
| reader_OutputPort | mask_Data | reslice_OutputData | reslicedVolume_Data
| reslicedMask_Data | shiftScale_OutputData | imMath_OutputPort.

Inductive MathOp := VTK_ADD | VTK_MULTIPLY.
Inductive Interpolation := VTK_NEAREST | VTK_LINEAR.

Section Program.

Context {D : Type} `{DoubleOps D}.

Definition Vec3 : Type := (D * D * D)%type.

(** Arrays of the source: [double a[3]] and [int extent[6]], read by index. *)
Definition at3 {A} (a : A * A * A) (i : Z) : A :=
  let '(a0, a1, a2) := a in
  if i =? 0 then a0 else if i =? 1 then a1 else a2.

Record Extent6 := mkExtent { e0 : Z; e1 : Z; e2 : Z; e3 : Z; e4 : Z; e5 : Z }.

Definition at6 (e : Extent6) (i : Z) : Z :=
  if i =? 0 then e0 e else if i =? 1 then e1 e else if i =? 2 then e2 e
  else if i =? 3 then e3 e else if i =? 4 then e4 e else e5 e.

(** ** vtkImageData (toolkit object, state as the program sees it)

    Dimensions are not stored: the toolkit derives them from the extent,
    and [SetDimensions(i,j,k)] is [SetExtent(0,i-1,0,j-1,0,k-1)]. *)
Record vtkImageData := mkImage {
  Origin : Vec3;
  Spacing : Vec3;
  Extent : Extent6;
  ScalarTypeOf : ScalarType;
  NumberOfScalarComponents : Z;
  Scalars : list D
}.

Definition new_vtkImageData : vtkImageData :=
  {| Origin := (d_of_int 0, d_of_int 0, d_of_int 0);
     Spacing := (d_of_int 1, d_of_int 1, d_of_int 1);
     Extent := mkExtent 0 (-1) 0 (-1) 0 (-1);
     ScalarTypeOf := VTK_DOUBLE;
     NumberOfScalarComponents := 1;
     Scalars := [] |}.

Definition GetDimensions (im : vtkImageData) : Z * Z * Z :=
  let e := Extent im in (e1 e - e0 e + 1, e3 e - e2 e + 1, e5 e - e4 e + 1).

Definition SetExtent (e : Extent6) (im : vtkImageData) : vtkImageData :=
  mkImage (Origin im) (Spacing im) e (ScalarTypeOf im)
          (NumberOfScalarComponents im) (Scalars im).

Definition SetDimensions (dims : Z * Z * Z) (im : vtkImageData) : vtkImageData :=
  let '(i, j, k) := dims in SetExtent (mkExtent 0 (i - 1) 0 (j - 1) 0 (k - 1)) im.

Definition SetOrigin (o : Vec3) (im : vtkImageData) : vtkImageData :=
  mkImage o (Spacing im) (Extent im) (ScalarTypeOf im)
          (NumberOfScalarComponents im) (Scalars im).

Definition SetSpacing (s : Vec3) (im : vtkImageData) : vtkImageData :=
  mkImage (Origin im) s (Extent im) (ScalarTypeOf im)
          (NumberOfScalarComponents im) (Scalars im).

Definition SetScalars (sc : list D) (im : vtkImageData) : vtkImageData :=
  mkImage (Origin im) (Spacing im) (Extent im) (ScalarTypeOf im)
          (NumberOfScalarComponents im) sc.

Definition NumberOfPoints (im : vtkImageData) : Z :=
  let '(i, j, k) := GetDimensions im in i * j * k.

(** [AllocateScalars(type, n)]: one tuple per point of the extent.  The
    toolkit does not initialise the contents; [garbage] stands for whatever
    the fresh memory holds. *)
Definition AllocateScalars (garbage : D) (ty : ScalarType) (n : Z)
    (im : vtkImageData) : vtkImageData :=
  mkImage (Origin im) (Spacing im) (Extent im) ty n
          (repeat garbage (Z.to_nat (NumberOfPoints im * n))).

(** [GetScalarPointer(x,y,z)]: the toolkit answers a null pointer for an
    index outside the extent, and otherwise the address of that voxel,
    counted here in bytes from the start of a one-byte, one-component
    buffer. *)
Definition GetScalarPointer (im : vtkImageData) (x y z : Z) : Ptr :=
  let e := Extent im in
  let '(dx, dy, _) := GetDimensions im in
  if (x <? e0 e) || (e1 e <? x) || (y <? e2 e) || (e3 e <? y)
     || (z <? e4 e) || (e5 e <? z)
  then Null
  else Off ((x - e0 e) + dx * ((y - e2 e) + dy * (z - e4 e))).

(** ** vtkCylinder *)
Record vtkCylinder := mkCylinder { Center : Vec3; Radius : D }.

Definition new_vtkCylinder : vtkCylinder :=
  mkCylinder (d_of_int 0, d_of_int 0, d_of_int 0) d_half.

(** Modelled from the spec: the toolkit's [vtkCylinder::EvaluateFunction]
    is not in the repository; section 4 of the specification gives it as
    the [x^2 + z^2 - r^2] function relative to the center and radius. *)
Definition vtkCylinder_EvaluateFunction (c : vtkCylinder) (xyz : Vec3) : D :=
  let x := d_sub (at3 xyz 0) (at3 (Center c) 0) in
  let z := d_sub (at3 xyz 2) (at3 (Center c) 2) in
  d_sub (d_add (d_mul x x) (d_mul z z)) (d_mul (Radius c) (Radius c)).

(** [vtkImplicitFunction::EvaluateFunction(x, y, z)] packs its arguments
    and dispatches to the virtual one-argument version. *)
Definition EvaluateFunction (c : vtkCylinder) (x y z : D) : D :=
  vtkCylinder_EvaluateFunction c (x, y, z).


(** ** The filters of the slice chain (toolkit)

    What [vtkImageReslice] computes is kept abstract.  [vtkImageShiftScale]
    and [vtkImageMathematics] work pixel by pixel; the pixel operations,
    which include the conversion to the output scalar type, are abstract. *)
Record ResliceParams := mkReslice {
  OutputDimensionality : Z;
  ResliceAxesDirectionCosines : list Z;
  ResliceAxesOrigin : Vec3;
  InterpolationMode : Interpolation
}.

Variable ResliceExecute : ResliceParams -> vtkImageData -> vtkImageData.
Variable ShiftScalePixel : D -> D -> ScalarType -> D -> D.
Variable MathPixel : MathOp -> ScalarType -> D -> D -> D.

(** What the allocator leaves in a fresh buffer. *)
Variable fresh_memory : D.

Definition ShiftScaleExecute (shift scale : D) (out : option ScalarType)
    (im : vtkImageData) : vtkImageData :=
  let ty := match out with Some t => t | None => ScalarTypeOf im end in
  mkImage (Origin im) (Spacing im) (Extent im) ty (NumberOfScalarComponents im)
          (map (ShiftScalePixel shift scale ty) (Scalars im)).

Definition MathExecute (op : MathOp) (in1 in2 : vtkImageData) : vtkImageData :=
  SetScalars (map (fun ab => MathPixel op (ScalarTypeOf in1) (fst ab) (snd ab))
                  (combine (Scalars in1) (Scalars in2))) in1.

(** ** Program state *)
Record Reader := mkReader {
  FileName : option string;
  ReaderOutput : vtkImageData;
  ErrorCode : Z
}.

Record ResliceFilter := mkResliceFilter {
  ResliceInput : option DataRef;
  Params : ResliceParams;
  ResliceOutput : vtkImageData
}.

Record ShiftScaleFilter := mkShiftScale {
  ShiftScaleInput : option DataRef;
  Shift : D;
  Scale : D;
  OutputScalarType : option ScalarType;
  ShiftScaleOutput : vtkImageData
}.

Record MathFilter := mkMath {
  Input1 : option DataRef;
  Input2 : option DataRef;
  Operation : MathOp;
  MathOutput : vtkImageData
}.

Record World := mkWorld {
  reader : Reader;
  mask : vtkImageData;
  ptr : Ptr;
  cylinder : vtkCylinder;
  reslice : ResliceFilter;
  reslicedVolume : vtkImageData;
  reslicedMask : vtkImageData;
  shiftScale : ShiftScaleFilter;
  imMath : MathFilter;
  lut_Input : option DataRef
}.

Definition new_World : World :=
  {| reader := mkReader None new_vtkImageData 0;
     mask := new_vtkImageData;
     ptr := Null;
     cylinder := new_vtkCylinder;
     reslice := mkResliceFilter None
       (mkReslice 3 [1; 0; 0; 0; 1; 0; 0; 0; 1]
                  (d_of_int 0, d_of_int 0, d_of_int 0) VTK_NEAREST)
       new_vtkImageData;
     reslicedVolume := new_vtkImageData;
     reslicedMask := new_vtkImageData;
     shiftScale := mkShiftScale None (d_of_int 0) (d_of_int 1) None new_vtkImageData;
     imMath := mkMath None None VTK_ADD new_vtkImageData;
     lut_Input := None |}.

Definition on_reader (f : Reader -> Reader) (w : World) : World :=
  mkWorld (f (reader w)) (mask w) (ptr w) (cylinder w) (reslice w)
          (reslicedVolume w) (reslicedMask w) (shiftScale w) (imMath w) (lut_Input w).
Definition on_mask (f : vtkImageData -> vtkImageData) (w : World) : World :=
  mkWorld (reader w) (f (mask w)) (ptr w) (cylinder w) (reslice w)
          (reslicedVolume w) (reslicedMask w) (shiftScale w) (imMath w) (lut_Input w).
Definition set_ptr (p : Ptr) (w : World) : World :=
  mkWorld (reader w) (mask w) p (cylinder w) (reslice w)
          (reslicedVolume w) (reslicedMask w) (shiftScale w) (imMath w) (lut_Input w).
Definition on_cylinder (f : vtkCylinder -> vtkCylinder) (w : World) : World :=
  mkWorld (reader w) (mask w) (ptr w) (f (cylinder w)) (reslice w)
          (reslicedVolume w) (reslicedMask w) (shiftScale w) (imMath w) (lut_Input w).
Definition on_reslice (f : ResliceFilter -> ResliceFilter) (w : World) : World :=
  mkWorld (reader w) (mask w) (ptr w) (cylinder w) (f (reslice w))
          (reslicedVolume w) (reslicedMask w) (shiftScale w) (imMath w) (lut_Input w).
Definition set_reslicedVolume (im : vtkImageData) (w : World) : World :=
  mkWorld (reader w) (mask w) (ptr w) (cylinder w) (reslice w)
          im (reslicedMask w) (shiftScale w) (imMath w) (lut_Input w).
Definition set_reslicedMask (im : vtkImageData) (w : World) : World :=
  mkWorld (reader w) (mask w) (ptr w) (cylinder w) (reslice w)
          (reslicedVolume w) im (shiftScale w) (imMath w) (lut_Input w).
Definition on_shiftScale (f : ShiftScaleFilter -> ShiftScaleFilter) (w : World) : World :=
  mkWorld (reader w) (mask w) (ptr w) (cylinder w) (reslice w)
          (reslicedVolume w) (reslicedMask w) (f (shiftScale w)) (imMath w) (lut_Input w).
Definition on_imMath (f : MathFilter -> MathFilter) (w : World) : World :=
  mkWorld (reader w) (mask w) (ptr w) (cylinder w) (reslice w)
          (reslicedVolume w) (reslicedMask w) (shiftScale w) (f (imMath w)) (lut_Input w).
Definition set_lut_Input (r : option DataRef) (w : World) : World :=
  mkWorld (reader w) (mask w) (ptr w) (cylinder w) (reslice w)
          (reslicedVolume w) (reslicedMask w) (shiftScale w) (imMath w) r.

(** The data object behind a connection or a data pointer, as it is at the
    moment a filter executes: filters hold references, not copies. *)
Definition deref (w : World) (r : DataRef) : vtkImageData :=
  match r with
  | reader_OutputPort => ReaderOutput (reader w)
  | mask_Data => mask w
  | reslice_OutputData => ResliceOutput (reslice w)
  | reslicedVolume_Data => reslicedVolume w
  | reslicedMask_Data => reslicedMask w
  | shiftScale_OutputData => ShiftScaleOutput (shiftScale w)
  | imMath_OutputPort => MathOutput (imMath w)
  end.

Definition deref_input (w : World) (r : option DataRef) : vtkImageData :=
  match r with Some d => deref w d | None => new_vtkImageData end.

(** ** The monad: state, undefined behaviour, and the record of steps *)
Definition M (A : Type) : Type := World -> option (A * World * list Event).

Definition ret {A} (a : A) : M A := fun w => Some (a, w, []).

Definition bind {A B} (m : M A) (f : A -> M B) : M B :=
  fun w =>
    match m w with
    | None => None
    | Some (a, w1, t1) =>
        match f a w1 with
        | None => None
        | Some (b, w2, t2) => Some (b, w2, t1 ++ t2)
        end
    end.

Notation "x <- m ;; k" := (bind m (fun x => k))
  (at level 61, m at next level, right associativity).
Notation "m ;; k" := (bind m (fun _ => k))
  (at level 61, right associativity).

(** A toolkit call made as a statement, with its effect on the state. *)
Definition call (receiver method : string) (f : World -> World) : M unit :=
  fun w => Some (tt, f w, [Call receiver method]).

(** A toolkit call made for its answer. *)
Definition query {A} (receiver method : string) (f : World -> A) : M A :=
  fun w => Some (f w, w, [Call receiver method]).

Definition poke {A} (n : nat) (x : A) (l : list A) : list A :=
  firstn n l ++ x :: skipn (S n) l.

(** [*ptr++ = v]: a store outside the mask's buffer, or through a null
    pointer, is undefined behaviour. *)
Definition store (v : Z) : M unit :=
  fun w =>
    match ptr w with
    | Null => None
    | Off k =>
        if (0 <=? k) && (k <? Z.of_nat (List.length (Scalars (mask w)))) then
          Some (tt,
                set_ptr (Off (k + 1))
                  (on_mask (SetScalars (poke (Z.to_nat k) (d_of_int (to_uchar v))
                                             (Scalars (mask w)))) w),
                [Store (Off k) (to_uchar v)])
        else None
    end.

(** [for (int i = i0; i < i0 + n; ++i) body] *)
Fixpoint for_from (n : nat) (i : Z) (body : Z -> M unit) : M unit :=
  match n with
  | O => ret tt
  | S n' => body i ;; for_from n' (i + 1) body
  end.

(** [for (int i = 0; i < hi; ++i) body] *)
Definition for_int (hi : Z) (body : Z -> M unit) : M unit :=
  for_from (Z.to_nat hi) 0 body.

(** Reading the state inside an expression (no statement of its own). *)
Definition get {A} (f : World -> A) : M A := fun w => Some (f w, w, []).

(** ** The process around [main] *)
Record Process := mkProcess {
  argc : Z;
  argv : list string;
  environ : string -> option string;
  files : string -> option vtkImageData    (* contents of the readable files *)
}.

(** [reader->Update()]: an unreadable file leaves the reader with an empty
    output and an error code that the toolkit keeps for whoever asks. *)
Definition reader_Update (p : Process) (r : Reader) : Reader :=
  match FileName r with
  | None => mkReader None new_vtkImageData 1
  | Some f =>
      match files p f with
      | Some im => mkReader (Some f) im 0
      | None => mkReader (Some f) new_vtkImageData 1
      end
  end.

Definition reslice_Update (w : World) : World :=
  on_reslice (fun r =>
    mkResliceFilter (ResliceInput r) (Params r)
      (ResliceExecute (Params r) (deref_input w (ResliceInput r)))) w.

Definition shiftScale_Update (w : World) : World :=
  on_shiftScale (fun f =>
    mkShiftScale (ShiftScaleInput f) (Shift f) (Scale f) (OutputScalarType f)
      (ShiftScaleExecute (Shift f) (Scale f) (OutputScalarType f)
                         (deref_input w (ShiftScaleInput f)))) w.

Definition imMath_Update (w : World) : World :=
  on_imMath (fun f =>
    mkMath (Input1 f) (Input2 f) (Operation f)
      (MathExecute (Operation f) (deref_input w (Input1 f))
                   (deref_input w (Input2 f)))) w.

(** [renWin->Render()] pulls the slice pipeline: the colour map asks its
    input, the multiply filter, to execute. *)
Definition renWin_Render (w : World) : World :=
  match lut_Input w with
  | Some imMath_OutputPort => imMath_Update w
  | _ => w
  end.

(** Lines 46-51: [center[i] = origin[i] + spacing[i] * 0.5 * (extent[2*i] + extent[2*i+1])]. *)
Definition center_at (origin spacing : Vec3) (extent : Extent6) (i : Z) : D :=
  d_add (at3 origin i)
        (d_mul (d_mul (at3 spacing i) d_half)
               (d_of_int (int_add (at6 extent (2 * i)) (at6 extent (2 * i + 1))))).

Definition calculate_center (origin spacing : Vec3) (extent : Extent6) : Vec3 :=
  (center_at origin spacing extent 0,
   center_at origin spacing extent 1,
   center_at origin spacing extent 2).

(** Line 63: [dims[0]/2.0 - 50]. *)
Definition calculate_radius (dims : Z * Z * Z) : D :=
  d_sub (d_div (d_of_int (at3 dims 0)) (d_of_int 2)) (d_of_int 50).

(** Lines 75-92: the mask-filling triple loop. *)
Definition fill_mask (dims : Z * Z * Z) : M unit :=
  for_int (at3 dims 2) (fun z =>
    for_int (at3 dims 1) (fun y =>
      for_int (at3 dims 0) (fun x =>
        f <- get (fun w => EvaluateFunction (cylinder w)
                             (d_of_int x) (d_of_int z) (d_of_int y)) ;;
        if d_gtb f (d_of_int 0)
        then store 0        (* point is outside cylinder *)
        else store 255))).

Arguments call (receiver method)%_string f.
Arguments query {A} (receiver method)%_string f.

(** Statements whose effect on the toolkit's rendering objects is not
    followed: only the fact and the order of the call are kept. *)
Definition invoke (receiver method : string) : M unit := call receiver method (fun w => w).
Arguments invoke (receiver method)%_string.

Definition main (p : Process) : M Z :=
  (* Read the Volume file from the Data directory next to exe file *)
  call "reader" "SetFileName"
       (on_reader (fun r => mkReader (Some "Data/CTHead.vti"%string)
                                     (ReaderOutput r) (ErrorCode r))) ;;
  call "reader" "Update" (on_reader (reader_Update p)) ;;
  (* Fetch volume parameters *)
  origin <- query "reader->GetOutput()" "GetOrigin" (fun w => Origin (ReaderOutput (reader w))) ;;
  spacing <- query "reader->GetOutput()" "GetSpacing" (fun w => Spacing (ReaderOutput (reader w))) ;;
  dims <- query "reader->GetOutput()" "GetDimensions"
                (fun w => GetDimensions (ReaderOutput (reader w))) ;;
  extent <- query "reader->GetOutput()" "GetExtent" (fun w => Extent (ReaderOutput (reader w))) ;;
  (* Calculate center of volume for cylindrical mask center *)
  let center := calculate_center origin spacing extent in
  (* Create a mask image data with the same parameters as the volume *)
  call "mask" "SetDimensions" (on_mask (SetDimensions dims)) ;;
  call "mask" "SetOrigin"
       (on_mask (SetOrigin (d_of_int (at6 extent 0), d_of_int (at6 extent 2),
                            d_of_int (at6 extent 4)))) ;;
  call "mask" "SetSpacing" (on_mask (SetSpacing spacing)) ;;
  call "mask" "SetExtent" (on_mask (SetExtent extent)) ;;
  call "mask" "AllocateScalars"
       (on_mask (AllocateScalars fresh_memory VTK_UNSIGNED_CHAR 1)) ;;
  call "mask" "GetScalarPointer" (fun w => set_ptr (GetScalarPointer (mask w) 0 0 0) w) ;;
  let radius := calculate_radius dims in
  (* Create a cylindrical implicit function centered at the center of the
     mask and with a custom radius *)
  call "cylinder" "SetCenter" (on_cylinder (fun c => mkCylinder center (Radius c))) ;;
  call "cylinder" "SetRadius" (on_cylinder (fun c => mkCylinder (Center c) radius)) ;;
  (* Set all values of the mask within and on the cylinder = 255 and all
     other values = 0. *)
  fill_mask dims ;;
  (* Create a reslice filter with center at origin and slice as sagittal plane *)
  call "reslice" "SetInputConnection"
       (on_reslice (fun r => mkResliceFilter (Some reader_OutputPort) (Params r)
                                             (ResliceOutput r))) ;;
  call "reslice" "SetOutputDimensionality"
       (on_reslice (fun r => mkResliceFilter (ResliceInput r)
          (mkReslice 2 (ResliceAxesDirectionCosines (Params r))
                     (ResliceAxesOrigin (Params r)) (InterpolationMode (Params r)))
          (ResliceOutput r))) ;;
  call "reslice" "SetResliceAxesDirectionCosines"
       (on_reslice (fun r => mkResliceFilter (ResliceInput r)
          (mkReslice (OutputDimensionality (Params r))
                     [0; -1; 0;  0; 0; -1;  -1; 0; 0]
                     (ResliceAxesOrigin (Params r)) (InterpolationMode (Params r)))
          (ResliceOutput r))) ;;
  call "reslice" "SetResliceAxesOrigin"
       (on_reslice (fun r => mkResliceFilter (ResliceInput r)
          (mkReslice (OutputDimensionality (Params r))
                     (ResliceAxesDirectionCosines (Params r))
                     center (InterpolationMode (Params r)))
          (ResliceOutput r))) ;;
  call "reslice" "SetInterpolationModeToLinear"
       (on_reslice (fun r => mkResliceFilter (ResliceInput r)
          (mkReslice (OutputDimensionality (Params r))
                     (ResliceAxesDirectionCosines (Params r))
                     (ResliceAxesOrigin (Params r)) VTK_LINEAR)
          (ResliceOutput r))) ;;
  call "reslice" "Update" reslice_Update ;;
  (* Slice the volume *)
  call "reslicedVolume" "DeepCopy"
       (fun w => set_reslicedVolume (ResliceOutput (reslice w)) w) ;;
  (* Slice the mask *)
  call "reslice" "SetInputData"
       (on_reslice (fun r => mkResliceFilter (Some mask_Data) (Params r)
                                             (ResliceOutput r))) ;;
  call "reslice" "Update" reslice_Update ;;
  call "reslicedMask" "DeepCopy"
       (fun w => set_reslicedMask (ResliceOutput (reslice w)) w) ;;
  (* Scale the mask to have values either 1 or 0 and the same scalar type
     as the volume slice. This is necessary to mask slice values *)
  call "shiftScale" "SetInputData"
       (on_shiftScale (fun f => mkShiftScale (Some reslicedMask_Data) (Shift f) (Scale f)
                                             (OutputScalarType f) (ShiftScaleOutput f))) ;;
  call "shiftScale" "SetShift"
       (on_shiftScale (fun f => mkShiftScale (ShiftScaleInput f) (d_of_int 0) (Scale f)
                                             (OutputScalarType f) (ShiftScaleOutput f))) ;;
  call "shiftScale" "SetScale"
       (on_shiftScale (fun f => mkShiftScale (ShiftScaleInput f) (Shift f)
                                             (d_div (d_of_int 1) (d_of_int 255))
                                             (OutputScalarType f) (ShiftScaleOutput f))) ;;
  call "shiftScale" "SetOutputScalarType"
       (fun w => on_shiftScale (fun f =>
          mkShiftScale (ShiftScaleInput f) (Shift f) (Scale f)
                       (Some (ScalarTypeOf (reslicedVolume w))) (ShiftScaleOutput f)) w) ;;
  call "shiftScale" "Update" shiftScale_Update ;;
  (* Multiply the volume slice with the scaled mask slice. The result of
     this operation is a masked volume slice. *)
  call "imMath" "SetInput1Data"
       (on_imMath (fun f => mkMath (Some reslicedVolume_Data) (Input2 f)
                                   (Operation f) (MathOutput f))) ;;
  call "imMath" "SetInput2Data"
       (on_imMath (fun f => mkMath (Input1 f) (Some shiftScale_OutputData)
                                   (Operation f) (MathOutput f))) ;;
  call "imMath" "SetOperationToMultiply"
       (on_imMath (fun f => mkMath (Input1 f) (Input2 f) VTK_MULTIPLY (MathOutput f))) ;;
  (* Create the GPU mapper and set the mask on it *)
  invoke "volumeMapper" "SetInputConnection" ;;
  invoke "volumeMapper" "SetMaskInput" ;;
  invoke "volumeMapper" "SetMaskTypeToBinary" ;;
  (* Create color transfer function *)
  invoke "ctf" "AddRGBPoint" ;;
  invoke "ctf" "AddRGBPoint" ;;
  invoke "ctf" "AddRGBPoint" ;;
  invoke "ctf" "AddRGBPoint" ;;
  invoke "ctf" "AddRGBPoint" ;;
  invoke "ctf" "AddRGBPoint" ;;
  invoke "ctf" "AddRGBPoint" ;;
  (* Scalar opacity function *)
  invoke "pwf" "AddPoint" ;;
  invoke "pwf" "AddPoint" ;;
  invoke "volumeProperty" "SetColor" ;;
  invoke "volumeProperty" "SetScalarOpacity" ;;
  invoke "volume" "SetMapper" ;;
  invoke "volume" "SetProperty" ;;
  (* Use the same color function for slice *)
  call "lut" "SetInputConnection" (set_lut_Input (Some imMath_OutputPort)) ;;
  invoke "lut" "SetLookupTable" ;;
  invoke "slice->GetMapper()" "SetInputConnection" ;;
  (* Create an outline for the volume *)
  invoke "outline" "SetInputConnection" ;;
  invoke "outlineMapper" "SetInputConnection" ;;
  invoke "outlineActor" "SetMapper" ;;
  (* Render *)
  invoke "renWin" "SetSize" ;;
  invoke "iren" "SetRenderWindow" ;;
  invoke "iren" "SetInteractorStyle" ;;
  invoke "ren1" "SetViewport" ;;
  invoke "ren1" "SetBackground" ;;
  invoke "renWin" "AddRenderer" ;;
  invoke "ren2" "SetViewport" ;;
  invoke "ren2" "SetBackground" ;;
  invoke "renWin" "AddRenderer" ;;
  invoke "ren1" "AddVolume" ;;
  invoke "ren1" "AddActor" ;;
  invoke "ren1" "ResetCamera" ;;
  invoke "ren2" "AddActor" ;;
  invoke "ren2" "ResetCamera" ;;
  call "renWin" "Render" renWin_Render ;;
  invoke "iren" "Initialize" ;;
  invoke "iren" "Start" ;;
  ret EXIT_SUCCESS.

(** A run of the program: [main] from the state in which every object has
    just been constructed. *)
Definition run (p : Process) : option (Z * World * list Event) := main p new_World.

(** ** Quantities the properties are stated with *)

(** The byte the loop body stores when its counters are [x], [y], [z]
    (lines 81-89). *)
Definition mask_value (cyl : vtkCylinder) (x y z : Z) : Z :=
  to_uchar (if d_gtb (EvaluateFunction cyl (d_of_int x) (d_of_int z) (d_of_int y))
                     (d_of_int 0)
            then 0 else 255).

(** Position of voxel [(x, y, z)] in a buffer laid out x-fastest. *)
Definition voxel_offset (dims : Z * Z * Z) (x y z : Z) : Z :=
  x + at3 dims 0 * (y + at3 dims 1 * z).

Definition in_volume (dims : Z * Z * Z) (x y z : Z) : Prop :=
  0 <= x < at3 dims 0 /\ 0 <= y < at3 dims 1 /\ 0 <= z < at3 dims 2.

(** The toolkit's map from a structured index to physical space. *)
Definition IndexToPhysical (im : vtkImageData) (i j k : Z) : Vec3 :=
  (d_add (at3 (Origin im) 0) (d_mul (d_of_int i) (at3 (Spacing im) 0)),
   d_add (at3 (Origin im) 1) (d_mul (d_of_int j) (at3 (Spacing im) 1)),
   d_add (at3 (Origin im) 2) (d_mul (d_of_int k) (at3 (Spacing im) 2))).

(** The geometric reading of "the voxel lies within the cylinder": the
    implicit function is not positive at the voxel's own location. *)
Definition voxel_within_cylinder (im : vtkImageData) (cyl : vtkCylinder)
    (x y z : Z) : bool :=
  negb (d_gtb (vtkCylinder_EvaluateFunction cyl (IndexToPhysical im x y z)) (d_of_int 0)).


(** The sagittal plane through [center], as lines 97-102 configure it. *)
Definition sagittal_through (center : Vec3) : ResliceParams :=
  mkReslice 2 [0; -1; 0;  0; 0; -1;  -1; 0; 0] center VTK_LINEAR.

(** ** The steps of the program, by phase *)
Inductive Phase :=
| LoadFile | ComputeMask | SliceChain | MapperAndTransferFunctions
| SliceActorAndOutline | RenderersAndInteractor | EventLoop.

Definition receiver_phase : list (string * Phase) :=
  [ ("reader", LoadFile);
    ("reader->GetOutput()", ComputeMask); ("mask", ComputeMask); ("cylinder", ComputeMask);
    ("reslice", SliceChain); ("reslicedVolume", SliceChain); ("reslicedMask", SliceChain);
    ("shiftScale", SliceChain); ("imMath", SliceChain);
    ("volumeMapper", MapperAndTransferFunctions); ("ctf", MapperAndTransferFunctions);
    ("pwf", MapperAndTransferFunctions); ("volumeProperty", MapperAndTransferFunctions);
    ("volume", MapperAndTransferFunctions);
    ("lut", SliceActorAndOutline); ("slice->GetMapper()", SliceActorAndOutline);
    ("outline", SliceActorAndOutline); ("outlineMapper", SliceActorAndOutline);
    ("outlineActor", SliceActorAndOutline);
    ("renWin", RenderersAndInteractor); ("iren", RenderersAndInteractor);
    ("ren1", RenderersAndInteractor); ("ren2", RenderersAndInteractor) ]%string.

Fixpoint lookup_phase (r : string) (tbl : list (string * Phase)) : option Phase :=
  match tbl with
  | [] => None
  | (k, ph) :: tbl' => if String.eqb r k then Some ph else lookup_phase r tbl'
  end.

Definition phase_of (e : Event) : option Phase :=
  match e with
  | Store _ _ => Some ComputeMask
  | Call r m =>
      if String.eqb r "iren" && String.eqb m "Start" then Some EventLoop
      else lookup_phase r receiver_phase
  end.

(** A non-empty run of steps that all belong to one phase. *)
Definition phase_segment (ph : Phase) (l : list Event) : Prop :=
  l <> [] /\ Forall (fun e => phase_of e = Some ph) l.

Definition is_store (e : Event) : bool :=
  match e with Store _ _ => true | Call _ _ => false end.

(** The toolkit calls of a record of steps, the stores left out. *)
Definition calls (t : list Event) : list Event := filter (fun e => negb (is_store e)) t.

(** The stores of a record of steps, the toolkit calls left out. *)
Definition stores (t : list Event) : list Event := filter is_store t.

(** The toolkit calls made on one object, in order. *)
Definition calls_on (receiver : string) (t : list Event) : list Event :=
  filter (fun e => match e with
                   | Call r _ => String.eqb r receiver
                   | Store _ _ => false
                   end) t.

Definition steps_load : list Event :=
  [Call "reader" "SetFileName"; Call "reader" "Update"].

Definition steps_mask_setup : list Event :=
  [Call "reader->GetOutput()" "GetOrigin"; Call "reader->GetOutput()" "GetSpacing";
   Call "reader->GetOutput()" "GetDimensions"; Call "reader->GetOutput()" "GetExtent";
   Call "mask" "SetDimensions"; Call "mask" "SetOrigin"; Call "mask" "SetSpacing";
   Call "mask" "SetExtent"; Call "mask" "AllocateScalars"; Call "mask" "GetScalarPointer";
   Call "cylinder" "SetCenter"; Call "cylinder" "SetRadius"].

Definition steps_slice_chain : list Event :=
  [Call "reslice" "SetInputConnection"; Call "reslice" "SetOutputDimensionality";
   Call "reslice" "SetResliceAxesDirectionCosines"; Call "reslice" "SetResliceAxesOrigin";
   Call "reslice" "SetInterpolationModeToLinear"; Call "reslice" "Update";
   Call "reslicedVolume" "DeepCopy"; Call "reslice" "SetInputData";
   Call "reslice" "Update"; Call "reslicedMask" "DeepCopy";
   Call "shiftScale" "SetInputData"; Call "shiftScale" "SetShift";
   Call "shiftScale" "SetScale"; Call "shiftScale" "SetOutputScalarType";
   Call "shiftScale" "Update"; Call "imMath" "SetInput1Data";
   Call "imMath" "SetInput2Data"; Call "imMath" "SetOperationToMultiply"].

Definition steps_mapper_transfer : list Event :=
  [Call "volumeMapper" "SetInputConnection"; Call "volumeMapper" "SetMaskInput";
   Call "volumeMapper" "SetMaskTypeToBinary";
   Call "ctf" "AddRGBPoint"; Call "ctf" "AddRGBPoint"; Call "ctf" "AddRGBPoint";
   Call "ctf" "AddRGBPoint"; Call "ctf" "AddRGBPoint"; Call "ctf" "AddRGBPoint";
   Call "ctf" "AddRGBPoint"; Call "pwf" "AddPoint"; Call "pwf" "AddPoint";
   Call "volumeProperty" "SetColor"; Call "volumeProperty" "SetScalarOpacity";
   Call "volume" "SetMapper"; Call "volume" "SetProperty"].

Definition steps_slice_outline : list Event :=
  [Call "lut" "SetInputConnection"; Call "lut" "SetLookupTable";
   Call "slice->GetMapper()" "SetInputConnection";
   Call "outline" "SetInputConnection"; Call "outlineMapper" "SetInputConnection";
   Call "outlineActor" "SetMapper"].

Definition steps_render : list Event :=
  [Call "renWin" "SetSize"; Call "iren" "SetRenderWindow"; Call "iren" "SetInteractorStyle";
   Call "ren1" "SetViewport"; Call "ren1" "SetBackground"; Call "renWin" "AddRenderer";
   Call "ren2" "SetViewport"; Call "ren2" "SetBackground"; Call "renWin" "AddRenderer";
   Call "ren1" "AddVolume"; Call "ren1" "AddActor"; Call "ren1" "ResetCamera";
   Call "ren2" "AddActor"; Call "ren2" "ResetCamera"; Call "renWin" "Render";
   Call "iren" "Initialize"].

Definition steps_after_loop : list Event :=
  steps_slice_chain ++ steps_mapper_transfer ++ steps_slice_outline ++ steps_render
  ++ [Call "iren" "Start"].

Definition program_calls : list Event :=
  steps_load ++ steps_mask_setup ++ steps_after_loop.

(** ** The state on entry to the loop and on exit from [main] *)

Definition input_path : string := "Data/CTHead.vti".

(** The reader once [Update] has run. *)
Definition loaded (p : Process) : Reader :=
  reader_Update p (mkReader (Some input_path) new_vtkImageData 0).

Definition volume_of (p : Process) : vtkImageData := ReaderOutput (loaded p).

Definition center_of (vol : vtkImageData) : Vec3 :=
  calculate_center (Origin vol) (Spacing vol) (Extent vol).

Definition world_at_loop (p : Process) : World :=
  let vol := volume_of p in
  let extent := Extent vol in
  let m :=
    AllocateScalars fresh_memory VTK_UNSIGNED_CHAR 1
      (SetExtent extent
         (SetSpacing (Spacing vol)
            (SetOrigin (d_of_int (at6 extent 0), d_of_int (at6 extent 2),
                        d_of_int (at6 extent 4))
               (SetDimensions (GetDimensions vol) new_vtkImageData)))) in
  mkWorld (loaded p) m (GetScalarPointer m 0 0 0)
          (mkCylinder (center_of vol) (calculate_radius (GetDimensions vol)))
          (reslice new_World) (reslicedVolume new_World) (reslicedMask new_World)
          (shiftScale new_World) (imMath new_World) (lut_Input new_World).

Definition world_at_exit (center : Vec3) (w : World) : World :=
  let params := sagittal_through center in
  let rv := ResliceExecute params (ReaderOutput (reader w)) in
  let rm := ResliceExecute params (mask w) in
  let scale := d_div (d_of_int 1) (d_of_int 255) in
  let ty := Some (ScalarTypeOf rv) in
  let ss := ShiftScaleExecute (d_of_int 0) scale ty rm in
  mkWorld (reader w) (mask w) (ptr w) (cylinder w)
          (mkResliceFilter (Some mask_Data) params rm) rv rm
          (mkShiftScale (Some reslicedMask_Data) (d_of_int 0) scale ty ss)
          (mkMath (Some reslicedVolume_Data) (Some shiftScale_OutputData) VTK_MULTIPLY
                  (MathExecute VTK_MULTIPLY rv ss))
          (Some imMath_OutputPort).

(** ** A block of consecutive stores *)

Definition blit {A} (n : nat) (vs : list A) (l : list A) : list A :=
  firstn n l ++ vs ++ skipn (n + List.length vs) l.

Definition stored (p : Ptr) (sc : list D) (w : World) : World :=
  set_ptr p (on_mask (SetScalars sc) w).

Definition advance (p : Ptr) (m : nat) : Ptr :=
  match p with Null => Null | Off k => Off (k + Z.of_nat m) end.

Definition base (p : Ptr) : Z := match p with Null => 0 | Off k => k end.

(** [m] stores from [p] stay inside a buffer of [len] bytes. *)
Definition in_bounds (p : Ptr) (m len : nat) : bool :=
  (m =? 0)%nat ||
  match p with
  | Null => false
  | Off k => (0 <=? k) && (k + Z.of_nat m <=? Z.of_nat len)
  end.

(** The outcome of storing [g 0], ..., [g (m-1)] through [ptr]. *)
Definition block_result (m : nat) (g : nat -> Z) (w : World)
  : option (unit * World * list Event) :=
  if in_bounds (ptr w) m (List.length (Scalars (mask w))) then
    Some (tt,
          stored (advance (ptr w) m)
                 (blit (Z.to_nat (base (ptr w)))
                       (map (fun j => d_of_int (g j)) (seq 0 m)) (Scalars (mask w))) w,
          map (fun j => Store (Off (base (ptr w) + Z.of_nat j)) (g j)) (seq 0 m))
  else None.

Definition is_block (cyl : vtkCylinder) (c : M unit) (m : nat) (g : nat -> Z) : Prop :=
  forall w, cylinder w = cyl -> c w = block_result m g w.

(** Number of iterations of the triple loop, and the byte stored by the
    [j]-th of them: x runs fastest, then y, then z. *)
Definition loop_count (dims : Z * Z * Z) : nat :=
  (Z.to_nat (at3 dims 2) * (Z.to_nat (at3 dims 1) * Z.to_nat (at3 dims 0)))%nat.

Definition loop_value (cyl : vtkCylinder) (dims : Z * Z * Z) (j : nat) : Z :=
  let nx := Z.to_nat (at3 dims 0) in
  let ny := Z.to_nat (at3 dims 1) in
  mask_value cyl (Z.of_nat (j mod nx)) (Z.of_nat ((j / nx) mod ny))
             (Z.of_nat (j / (nx * ny))).

End Program.

Notation "x <- m ;; k" := (bind m (fun x => k))
  (at level 61, m at next level, right associativity).
Notation "m ;; k" := (bind m (fun _ => k))
  (at level 61, right associativity).

(** ** Exact arithmetic

    The rationals interpret the operations on [double] without rounding.
    Every number met in the concrete runs below is a dyadic rational of a
    few bits, which a [double] holds exactly, so on these inputs the
    operations agree with IEEE-754 arithmetic. *)
Module Exact.

#[export] Instance Qc_DoubleOps : DoubleOps Qc := {
  d_of_int := fun n => Q2Qc (inject_Z n);
  d_half := Q2Qc (1 # 2);
  d_add := Qcplus;
  d_sub := Qcminus;
  d_mul := Qcmult;
  d_div := Qcdiv;
  d_gtb := fun a b => negb (Qle_bool a b);
  d_eqb := fun a b => Qeq_bool a b;
  d_gtb_eqb := fun a b E =>
    proj2 (negb_false_iff _)
      (proj2 (Qle_bool_iff a b) (proj2 (Qle_lteq a b) (or_intror (proj1 (Qeq_bool_iff a b) E))))
}.

(** Toolkit filters for concrete runs: the reslice filter hands its input
    on, and the pixel operations are those of an image of [double]. *)
Definition ResliceExecute (_ : @ResliceParams Qc) (im : @vtkImageData Qc) := im.
Definition ShiftScalePixel (shift scale : Qc) (_ : ScalarType) (v : Qc) : Qc :=
  ((v + shift) * scale)%Qc.
Definition MathPixel (op : MathOp) (_ : ScalarType) (a b : Qc) : Qc :=
  match op with VTK_ADD => (a + b)%Qc | VTK_MULTIPLY => (a * b)%Qc end.

Abbreviation run_exact := (run ResliceExecute ShiftScalePixel MathPixel (Q2Qc 0)).

Definition qc (n : Z) : Qc := Q2Qc (inject_Z n).

Definition volume (origin spacing : Z * Z * Z) (extent : Extent6) (voxels : list Z)
    : @vtkImageData Qc :=
  let v3 := fun t : Z * Z * Z => let '(a, b, c) := t in (qc a, qc b, qc c) in
  mkImage (v3 origin) (v3 spacing) extent VTK_DOUBLE 1 (map qc voxels).

Definition process_with (im : option (@vtkImageData Qc)) : @Process Qc :=
  mkProcess 1 ["VolumeMaskAndSlice"%string] (fun _ => None)
            (fun f => if String.eqb f "Data/CTHead.vti" then im else None).

(** Two points of physical space, compared coordinate by coordinate. *)
Definition same_point (a b : Qc * Qc * Qc) : bool :=
  d_eqb (at3 a 0) (at3 b 0) && d_eqb (at3 a 1) (at3 b 1) && d_eqb (at3 a 2) (at3 b 2).

(** Volumes for the concrete runs; the voxel values are 1, 2, 3, ... *)
Definition ct_surface : @vtkImageData Qc :=
  volume (0, 0, 0) (1, 1, 1) (mkExtent 0 102 0 2 0 1) (map Z.of_nat (seq 1 618)).

Definition ct_flat : @vtkImageData Qc :=
  volume (0, 0, 0) (1, 1, 1) (mkExtent 0 102 0 0 0 4) (map Z.of_nat (seq 1 515)).

Definition ct_shifted : @vtkImageData Qc :=
  volume (10, 20, 30) (2, 2, 2) (mkExtent 0 1 0 1 0 0) [1; 2; 3; 4].

Definition ct_negative_extent : @vtkImageData Qc :=
  volume (0, 0, 0) (1, 1, 1) (mkExtent (-1) 0 0 0 0 0) [1; 2].

(** A process with other arguments, another environment and other files
    beside the input file. *)
Definition process_elsewhere (im : option (@vtkImageData Qc)) : @Process Qc :=
  mkProcess 3 ["VolumeMaskAndSlice"; "--file"; "Data/Other.vti"]%string
            (fun v => if String.eqb v "DISPLAY" then Some ":0"%string else None)
            (fun f => if String.eqb f "Data/CTHead.vti" then im
                      else if String.eqb f "Data/Other.vti" then Some ct_surface
                      else None).

(** The geometry of [ct_shifted] with other voxel values, stored as shorts. *)
Definition ct_shifted_short : @vtkImageData Qc :=
  mkImage (Origin ct_shifted) (Spacing ct_shifted) (Extent ct_shifted) VTK_SHORT 1
          (map qc [9; 8; 7; 6]).

(** A volume whose extent starts at (5, 7, 9) and is empty along z. *)
Definition ct_displaced : @vtkImageData Qc :=
  volume (10, 20, 30) (2, 2, 2) (mkExtent 5 6 7 8 9 8) [].

End Exact.

(** * Properties *)

(** ** The triple loop as one block of consecutive stores *)

Section Stores.

Context {D : Type} `{DoubleOps D}.

Local Abbreviation World := (@World D).
Local Abbreviation vtkCylinder := (@vtkCylinder D).

Lemma stored_id (w : World) : stored (ptr w) (Scalars (mask w)) w = w.
Proof. destruct w as [r m p c rs rv rm ss im l]; destruct m; reflexivity. Qed.

Lemma blit_nil {A} n (l : list A) : blit n [] l = l.
Proof. unfold blit; simpl. rewrite Nat.add_0_r. apply firstn_skipn. Qed.

Lemma blit_length {A} n (vs l : list A) :
  (n + List.length vs <= List.length l)%nat -> List.length (blit n vs l) = List.length l.
Proof.
  intros L. unfold blit. rewrite !length_app, length_firstn, length_skipn. lia.
Qed.

Lemma blit_blit {A} n (v1 v2 l : list A) :
  (n + List.length v1 <= List.length l)%nat ->
  blit (n + List.length v1) v2 (blit n v1 l) = blit n (v1 ++ v2) l.
Proof.
  intros L. unfold blit.
  assert (F : List.length (firstn n l ++ v1) = (n + List.length v1)%nat)
    by (rewrite length_app, length_firstn; lia).
  rewrite (app_assoc (firstn n l) v1).
  rewrite <- F at 1.
  rewrite firstn_app, firstn_all, Nat.sub_diag, firstn_O, app_nil_r.
  rewrite skipn_app, F.
  rewrite (skipn_all2 (firstn n l ++ v1)) by lia.
  replace (n + List.length v1 + List.length v2 - (n + List.length v1))%nat
    with (List.length v2) by lia.
  rewrite skipn_skipn, length_app, <- !app_assoc. simpl.
  do 3 f_equal. f_equal. lia.
Qed.

Lemma store_block (cyl : vtkCylinder) (v : Z) :
  is_block cyl (store v) 1 (fun _ => to_uchar v).
Proof.
  intros w _. unfold store, block_result, in_bounds.
  destruct (ptr w) as [|k]; simpl; [reflexivity|].
  replace (k + 1 <=? Z.of_nat (List.length (Scalars (mask w))))
    with (k <? Z.of_nat (List.length (Scalars (mask w))))
    by (destruct (Z.ltb_spec k (Z.of_nat (List.length (Scalars (mask w)))));
        destruct (Z.leb_spec (k + 1) (Z.of_nat (List.length (Scalars (mask w))))); lia).
  destruct ((0 <=? k) && _); [|reflexivity].
  unfold poke, blit, stored. simpl. rewrite Nat.add_1_r, Z.add_0_r. reflexivity.
Qed.

Lemma body_block (cyl : vtkCylinder) (x y z : Z) :
  is_block cyl
    (f <- get (fun w => EvaluateFunction (cylinder w)
                             (d_of_int x) (d_of_int z) (d_of_int y)) ;;
        if d_gtb f (d_of_int 0)
        then store 0
        else store 255)
    1 (fun _ => mask_value cyl x y z).
Proof.
  intros w C. unfold bind, get. rewrite C. unfold mask_value.
  destruct (d_gtb _ _).
  - rewrite (store_block cyl 0 w C). destruct (block_result _ _ _) as [[[u w'] t]|]; reflexivity.
  - rewrite (store_block cyl 255 w C). destruct (block_result _ _ _) as [[[u w'] t]|]; reflexivity.
Qed.

Lemma map_seq_shift {A} (f : nat -> A) a n :
  map f (seq a n) = map (fun j => f (a + j)%nat) (seq 0 n).
Proof.
  rewrite <- (Nat.add_0_r a) at 1. generalize 0%nat as b.
  induction n as [|n IH]; intros b; simpl; [reflexivity|].
  f_equal. rewrite <- IH. f_equal. f_equal. lia.
Qed.

Lemma map_seq_app {A} (f : nat -> A) m1 m2 :
  map f (seq 0 (m1 + m2)) = map f (seq 0 m1) ++ map (fun j => f (m1 + j)%nat) (seq 0 m2).
Proof. rewrite seq_app, map_app, (map_seq_shift f (0 + m1)). reflexivity. Qed.

Lemma in_bounds_add p m1 m2 len :
  in_bounds p (m1 + m2) len = in_bounds p m1 len && in_bounds (advance p m1) m2 len.
Proof.
  unfold in_bounds, advance. destruct p as [|k].
  - destruct m1, m2; reflexivity.
  - destruct (Nat.eqb_spec (m1 + m2) 0), (Nat.eqb_spec m1 0), (Nat.eqb_spec m2 0);
      simpl; try lia;
      repeat match goal with
             | |- context [?a <=? ?b] => destruct (Z.leb_spec a b)
             end; simpl; try reflexivity; lia.
Qed.

Lemma block_result_ext m g g' w :
  (forall j, (j < m)%nat -> g j = g' j) -> block_result m g w = block_result m g' w.
Proof.
  intros E. unfold block_result.
  destruct (in_bounds _ _ _); [|reflexivity].
  do 2 f_equal.
  - f_equal. f_equal. f_equal. apply map_ext_in. intros j J. apply in_seq in J. rewrite E by lia. reflexivity.
  - apply map_ext_in. intros j J. apply in_seq in J. rewrite E by lia. reflexivity.
Qed.

(** Two blocks in sequence are one block. *)
Lemma block_seq m1 g1 m2 g2 w :
  match block_result m1 g1 w with
  | None => None
  | Some (_, w1, t1) =>
      match block_result m2 g2 w1 with
      | None => None
      | Some (b, w2, t2) => Some (b, w2, t1 ++ t2)
      end
  end = block_result (m1 + m2) (fun j => if (j <? m1)%nat then g1 j else g2 (j - m1)%nat) w.
Proof.
  unfold block_result at 1 3.
  rewrite in_bounds_add.
  destruct (in_bounds (ptr w) m1 _) eqn:B1; [|reflexivity].
  unfold block_result. cbn [stored set_ptr on_mask SetScalars ptr mask Scalars].
  assert (V1 : forall (A : Type) (f : nat -> Z -> A),
             map (fun j => f j (if (j <? m1)%nat then g1 j else g2 (j - m1)%nat)) (seq 0 m1)
             = map (fun j => f j (g1 j)) (seq 0 m1)).
  { intros A f. apply map_ext_in. intros j J. apply in_seq in J.
    destruct (Nat.ltb_spec j m1); [reflexivity|lia]. }
  assert (L1 : List.length (blit (Z.to_nat (base (ptr w)))
                 (map (fun j => d_of_int (g1 j)) (seq 0 m1)) (Scalars (mask w)))
               = List.length (Scalars (mask w))).
  { unfold in_bounds in B1. destruct (Nat.eqb_spec m1 0) as [->|N].
    - simpl. rewrite blit_nil. reflexivity.
    - simpl in B1. destruct (ptr w) as [|k]; [discriminate|].
      apply andb_true_iff in B1. destruct B1 as [B1 B2].
      apply Z.leb_le in B1, B2. apply blit_length. rewrite length_map, length_seq.
      simpl. lia. }
  rewrite L1.
  destruct (in_bounds (advance (ptr w) m1) m2 _) eqn:B2; [|reflexivity].
  simpl.
  assert (K : m2 = 0%nat \/ exists k, ptr w = Off k /\ 0 <= k
               /\ (Z.to_nat k + m1 <= List.length (Scalars (mask w)))%nat).
  { unfold in_bounds in B1, B2. destruct (Nat.eqb_spec m2 0); [left; assumption|right].
    destruct (ptr w) as [|k]; simpl in B2; [discriminate|]. exists k.
    apply andb_true_iff in B2. destruct B2 as [B2 B3]. apply Z.leb_le in B2, B3.
    destruct (Nat.eqb_spec m1 0); simpl in B1.
    - subst m1. repeat split; lia.
    - apply andb_true_iff in B1. destruct B1 as [B1 B4]. apply Z.leb_le in B1, B4.
      repeat split; lia. }
  destruct K as [->|(k & Pk & K0 & KL)].
  - rewrite Nat.add_0_r. simpl. rewrite blit_nil, app_nil_r.
    rewrite (V1 _ (fun _ v => d_of_int v)),
            (V1 _ (fun j v => Store (Off (base (ptr w) + Z.of_nat j)) v)).
    replace (advance (advance (ptr w) m1) 0) with (advance (ptr w) m1)
      by (destruct (ptr w); simpl; [reflexivity | f_equal; lia]).
    reflexivity.
  - rewrite Pk. simpl.
    rewrite !map_seq_app.
    rewrite (V1 _ (fun _ v => d_of_int v)),
            (V1 _ (fun j v => Store (Off (k + Z.of_nat j)) v)).
    change (stored ?p ?s (stored _ _ w)) with (stored p s w).
    replace (Z.to_nat (k + Z.of_nat m1)) with
      (Z.to_nat k + List.length (map (fun j => d_of_int (g1 j)) (seq 0 m1)))%nat
      by (rewrite length_map, length_seq; lia).
    rewrite blit_blit by (rewrite length_map, length_seq; lia).
    replace (k + Z.of_nat m1 + Z.of_nat m2) with (k + Z.of_nat (m1 + m2)) by lia.
    assert (E2 : forall (A : Type) (f f' : nat -> Z -> A),
               (forall j v, f j v = f' (m1 + j)%nat v) ->
               map (fun j => f j (g2 j)) (seq 0 m2)
               = map (fun j => f' (m1 + j)%nat
                                 (if (m1 + j <? m1)%nat then g1 (m1 + j)%nat
                                  else g2 (m1 + j - m1)%nat)) (seq 0 m2)).
    { intros A f f' E. apply map_ext_in. intros j _.
      destruct (Nat.ltb_spec (m1 + j) m1); [lia|].
      rewrite E. do 2 f_equal. lia. }
    rewrite (E2 _ (fun _ v => d_of_int v) (fun _ v => d_of_int v)) by reflexivity.
    rewrite (E2 _ (fun j v => Store (Off (k + Z.of_nat m1 + Z.of_nat j)) v)
                  (fun j v => Store (Off (k + Z.of_nat j)) v))
      by (intros; do 2 f_equal; lia).
    reflexivity.
Qed.

Lemma stored_cylinder p (s : list D) (w : World) : cylinder (stored p s w) = cylinder w.
Proof. reflexivity. Qed.

Lemma block_result_cylinder m g (w w' : World) u t :
  block_result m g w = Some (u, w', t) -> cylinder w' = cylinder w.
Proof.
  unfold block_result. destruct (in_bounds _ _ _); [|discriminate].
  intros E. injection E as _ <- _. reflexivity.
Qed.

Lemma block_result_0 g (w : World) : block_result 0 g w = Some (tt, w, []).
Proof.
  unfold block_result, in_bounds. simpl. rewrite blit_nil.
  replace (advance (ptr w) 0) with (ptr w)
    by (destruct (ptr w); simpl; [reflexivity | f_equal; lia]).
  rewrite stored_id. reflexivity.
Qed.

(** A counted loop over blocks of [m] stores is a block of [n * m] stores. *)
Lemma for_block cyl (body : Z -> M unit) m (g : Z -> nat -> Z) n i0 :
  (forall i, is_block cyl (body i) m (g i)) ->
  is_block cyl (for_from n i0 body) (n * m)
           (fun j => g (i0 + Z.of_nat (j / m)) (j mod m)%nat).
Proof.
  intros B. revert i0. induction n as [|n IH]; intros i0 w C.
  - simpl. rewrite block_result_0. reflexivity.
  - cbn [for_from]. unfold bind. rewrite (B i0 w C).
    transitivity
      (match block_result m (g i0) w with
       | None => None
       | Some (_, w1, t1) =>
           match block_result (n * m)
                   (fun j => g (i0 + 1 + Z.of_nat (j / m)) (j mod m)%nat) w1 with
           | None => None
           | Some (b, w2, t2) => Some (b, w2, t1 ++ t2)
           end
       end).
    + destruct (block_result m (g i0) w) as [[[u w1] t1]|] eqn:E1; [|reflexivity].
      rewrite (IH (i0 + 1) w1); [reflexivity|].
      rewrite (block_result_cylinder _ _ _ _ _ _ E1). exact C.
    + rewrite block_seq. simpl Nat.mul. apply block_result_ext.
      intros j J. destruct (Nat.ltb_spec j m) as [L|L].
      * rewrite Nat.div_small, Nat.mod_small by lia. f_equal. simpl. lia.
      * assert (M0 : m <> 0%nat) by lia.
        replace j with ((j - m) + 1 * m)%nat at 3 4 by lia.
        rewrite Nat.div_add, Nat.Div0.mod_add by lia.
        f_equal. lia.
Qed.


Lemma loop_index (j nx ny : nat) :
  nx <> 0%nat -> ny <> 0%nat ->
  ((j mod (ny * nx)) mod nx = j mod nx /\ (j mod (ny * nx)) / nx = (j / nx) mod ny)%nat.
Proof.
  intros X Y. rewrite (Nat.mul_comm ny nx), Nat.Div0.mod_mul_r.
  split.
  - rewrite Nat.mul_comm, Nat.Div0.mod_add. apply Nat.Div0.mod_mod.
  - rewrite Nat.mul_comm, Nat.div_add by assumption.
    rewrite Nat.div_small by (apply Nat.mod_upper_bound; assumption). reflexivity.
Qed.

(** The triple loop stores [loop_value cyl dims j] for j = 0, 1, ... in
    consecutive bytes, or is undefined when they do not fit. *)
Lemma fill_mask_block (cyl : vtkCylinder) (dims : Z * Z * Z) :
  is_block cyl (fill_mask dims) (loop_count dims) (loop_value cyl dims).
Proof.
  intros w C. unfold fill_mask, for_int.
  set (nx := Z.to_nat (at3 dims 0)). set (ny := Z.to_nat (at3 dims 1)).
  set (nz := Z.to_nat (at3 dims 2)).
  rewrite (for_block cyl _ (ny * (nx * 1))
             (fun z j => mask_value cyl (0 + Z.of_nat (((j mod (nx * 1)) / 1)))
                                        (0 + Z.of_nat (j / (nx * 1))) z) nz 0); [|  | exact C].
  - unfold loop_count. fold nx ny nz. rewrite Nat.mul_1_r.
    apply block_result_ext. intros j J. unfold loop_value. fold nx ny.
    assert (X : nx <> 0%nat) by (intros ->; lia).
    assert (Y : ny <> 0%nat) by (intros ->; lia).
    destruct (loop_index j nx ny X Y) as [E1 E2].
    rewrite Nat.div_1_r, E1, E2, (Nat.mul_comm nx ny). reflexivity.
  - intros z w' C'.
    rewrite (for_block cyl _ (nx * 1)
               (fun y j => mask_value cyl (0 + Z.of_nat (j / 1)) y z) ny 0); [| | exact C'].
    + apply block_result_ext. intros j J. f_equal. 
    + intros y w'' C''.
      rewrite (for_block cyl _ 1 (fun x _ => mask_value cyl x y z) nx 0); [| | exact C''].
      * reflexivity.
      * intros x. apply body_block.
Qed.

End Stores.

(** ** Runs of [main] *)

Section Main.

Context {D : Type} `{DoubleOps D}.
Variable ResliceExecute : @ResliceParams D -> @vtkImageData D -> @vtkImageData D.
Variable ShiftScalePixel : D -> D -> ScalarType -> D -> D.
Variable MathPixel : MathOp -> ScalarType -> D -> D -> D.
Variable fresh_memory : D.

Local Abbreviation World := (@World D).
Local Abbreviation Process := (@Process D).
Local Abbreviation run := (run ResliceExecute ShiftScalePixel MathPixel fresh_memory).
Local Abbreviation world_at_loop := (world_at_loop fresh_memory).
Local Abbreviation world_at_exit := (world_at_exit ResliceExecute ShiftScalePixel MathPixel).

(** [main] is its prefix up to the loop, the loop, and a suffix that cannot
    fail. *)
Lemma run_eq (p : Process) :
  run p =
  match fill_mask (GetDimensions (volume_of p)) (world_at_loop p) with
  | None => None
  | Some (_, w, t) =>
      Some (EXIT_SUCCESS, world_at_exit (center_of (volume_of p)) w,
            steps_load ++ steps_mask_setup ++ t ++ steps_after_loop)
  end.
Proof.
  unfold run, main.
  lazy beta iota delta [bind call query invoke ret].
  match goal with
  | |- context [fill_mask ?d ?w] =>
      change (fill_mask d w)
        with (fill_mask (GetDimensions (volume_of p)) (world_at_loop p))
  end.
  destruct (fill_mask (GetDimensions (volume_of p)) (world_at_loop p)) as [[[u w] t]|];
    reflexivity.
Qed.

Lemma fill_at_loop (p : Process) :
  let dims := GetDimensions (volume_of p) in
  fill_mask dims (world_at_loop p)
  = block_result (loop_count dims) (loop_value (cylinder (world_at_loop p)) dims)
                 (world_at_loop p).
Proof. intros dims. apply fill_mask_block. reflexivity. Qed.

Lemma mask_at_loop (p : Process) :
  let vol := volume_of p in
  mask (world_at_loop p)
  = mkImage (d_of_int (e0 (Extent vol)), d_of_int (e2 (Extent vol)),
             d_of_int (e4 (Extent vol)))
            (Spacing vol) (Extent vol) VTK_UNSIGNED_CHAR 1
            (repeat fresh_memory (Z.to_nat (NumberOfPoints vol * 1))).
Proof. reflexivity. Qed.

Lemma volume_of_file (p : Process) (vol : vtkImageData) :
  files p input_path = Some vol -> volume_of p = vol.
Proof. intros F. unfold volume_of, loaded, reader_Update. simpl. rewrite F. reflexivity. Qed.

(** Every run that is defined: its exit code, its state and its steps. *)
Lemma run_inv (p : Process) c w t :
  run p = Some (c, w, t) ->
  let dims := GetDimensions (volume_of p) in
  let W := world_at_loop p in
  let n := loop_count dims in
  let g := loop_value (cylinder W) dims in
  c = EXIT_SUCCESS /\
  in_bounds (ptr W) n (List.length (Scalars (mask W))) = true /\
  w = world_at_exit (center_of (volume_of p))
        (stored (advance (ptr W) n)
                (blit (Z.to_nat (base (ptr W))) (map (fun j => d_of_int (g j)) (seq 0 n))
                      (Scalars (mask W))) W) /\
  t = steps_load ++ steps_mask_setup
      ++ map (fun j => Store (Off (base (ptr W) + Z.of_nat j)) (g j)) (seq 0 n)
      ++ steps_after_loop.
Proof.
  intros R dims W n g. rewrite run_eq, fill_at_loop in R.
  fold dims W n g in R. unfold block_result in R.
  destruct (in_bounds (ptr W) n _); [|discriminate].
  injection R as <- <- <-. repeat split.
Qed.

Lemma loop_count_points (d0 d1 d2 : Z) :
  0 <= d0 -> 0 <= d1 -> 0 <= d2 ->
  loop_count (d0, d1, d2) = Z.to_nat (d0 * d1 * d2 * 1).
Proof.
  intros. unfold loop_count. simpl at3.
  rewrite Z.mul_1_r, !Z2Nat.inj_mul by lia. lia.
Qed.

Lemma in_bounds_full (q : Ptr) (n : nat) :
  (0 < n)%nat -> in_bounds q n n = true -> q = Off 0.
Proof.
  unfold in_bounds. intros N B. destruct (Nat.eqb_spec n 0); [lia|]. simpl in B.
  destruct q as [|k]; [discriminate|].
  apply andb_true_iff in B. destruct B as [B1 B2]. apply Z.leb_le in B1, B2.
  f_equal. lia.
Qed.

Lemma blit_all {A} (vs l : list A) : List.length vs = List.length l -> blit 0 vs l = vs.
Proof.
  intros L. unfold blit. simpl. rewrite L, skipn_all. apply app_nil_r.
Qed.

Lemma loop_value_at (cyl : @vtkCylinder D) (dims : Z * Z * Z) (x y z : Z) :
  in_volume dims x y z ->
  (Z.to_nat (voxel_offset dims x y z) < loop_count dims)%nat /\
  loop_value cyl dims (Z.to_nat (voxel_offset dims x y z)) = mask_value cyl x y z.
Proof.
  destruct dims as [[d0 d1] d2]. unfold in_volume, voxel_offset, loop_count, loop_value.
  simpl at3. intros (X & Y & Zr).
  set (nx := Z.to_nat d0). set (ny := Z.to_nat d1). set (nz := Z.to_nat d2).
  assert (J : Z.to_nat (x + d0 * (y + d1 * z))
              = (Z.to_nat x + nx * (Z.to_nat y + ny * Z.to_nat z))%nat).
  { assert (0 <= d1 * z) by (apply Z.mul_nonneg_nonneg; lia).
    assert (0 <= d0 * (y + d1 * z)) by (apply Z.mul_nonneg_nonneg; lia).
    subst nx ny. rewrite Z2Nat.inj_add, Z2Nat.inj_mul, Z2Nat.inj_add, Z2Nat.inj_mul by lia.
    reflexivity. }
  rewrite J.
  assert (Xn : (Z.to_nat x < nx)%nat) by (subst nx; lia).
  assert (Yn : (Z.to_nat y < ny)%nat) by (subst ny; lia).
  assert (Zn : (Z.to_nat z < nz)%nat) by (subst nz; lia).
  split.
  { assert (A1 : (ny * Z.to_nat z + ny <= ny * nz)%nat)
      by (rewrite <- Nat.mul_succ_r; apply Nat.mul_le_mono_l; lia).
    assert (A2 : (nx * (Z.to_nat y + ny * Z.to_nat z) + nx <= nx * (ny * nz))%nat)
      by (rewrite <- Nat.mul_succ_r; apply Nat.mul_le_mono_l; lia).
    lia. }
  assert (M : ((Z.to_nat x + nx * (Z.to_nat y + ny * Z.to_nat z)) mod nx = Z.to_nat x)%nat).
  { rewrite (Nat.mul_comm nx), Nat.Div0.mod_add. apply Nat.mod_small, Xn. }
  assert (Q : ((Z.to_nat x + nx * (Z.to_nat y + ny * Z.to_nat z)) / nx
               = Z.to_nat y + ny * Z.to_nat z)%nat).
  { rewrite (Nat.mul_comm nx), Nat.div_add by lia. rewrite Nat.div_small by exact Xn.
    reflexivity. }
  rewrite <- Nat.Div0.div_div, M, Q.
  rewrite (Nat.mul_comm ny) at 1. rewrite Nat.Div0.mod_add, (Nat.mod_small _ _ Yn).
  rewrite (Nat.mul_comm ny), Nat.div_add by lia. rewrite (Nat.div_small _ _ Yn).
  simpl. rewrite !Z2Nat.id by lia. reflexivity.
Qed.

Lemma buffer_length (p : Process) :
  let dims := GetDimensions (volume_of p) in
  0 <= at3 dims 0 -> 0 <= at3 dims 1 -> 0 <= at3 dims 2 ->
  List.length (Scalars (mask (world_at_loop p))) = loop_count dims.
Proof.
  intros dims P0 P1 P2. rewrite mask_at_loop. cbn [Scalars]. rewrite repeat_length.
  symmetry. apply (loop_count_points (at3 dims 0) (at3 dims 1) (at3 dims 2)); assumption.
Qed.

(** The mask of a defined run at a voxel of the volume. *)
Lemma mask_at_voxel (p : Process) c w t (x y z : Z) :
  run p = Some (c, w, t) ->
  in_volume (GetDimensions (volume_of p)) x y z ->
  let off := voxel_offset (GetDimensions (volume_of p)) x y z in
  let v := mask_value (cylinder w) x y z in
  nth_error (Scalars (mask w)) (Z.to_nat off) = Some (d_of_int v) /\
  In (Store (Off off) v) t.
Proof.
  intros R V off v. apply run_inv in R. cbv zeta in R.
  destruct R as (_ & B & -> & ->).
  set (dims := GetDimensions (volume_of p)) in *.
  assert (P : 0 <= at3 dims 0 /\ 0 <= at3 dims 1 /\ 0 <= at3 dims 2)
    by (unfold in_volume in V; lia).
  destruct (loop_value_at (cylinder (world_at_loop p)) dims x y z V) as [Lt Lv].
  assert (Len : List.length (Scalars (mask (world_at_loop p))) = loop_count dims)
    by (apply buffer_length; apply P).
  rewrite Len in B. apply in_bounds_full in B; [|lia].
  rewrite B. cbn [base advance]. 
  change (cylinder (world_at_exit _ _)) with (cylinder (world_at_loop p)) in v.
  change (mask (world_at_exit _ (stored ?q ?s _))) with (SetScalars s (mask (world_at_loop p))).
  cbn [Scalars SetScalars]. split.
  - rewrite blit_all by (rewrite length_map, length_seq; symmetry; exact Len).
    rewrite nth_error_map, nth_error_seq.
    destruct (Nat.ltb_spec (Z.to_nat off) (loop_count dims)) as [_|]; [|lia].
    cbn [option_map Nat.add]. unfold off. rewrite Lv. reflexivity.
  - apply in_or_app. right. apply in_or_app. right. apply in_or_app. left.
    apply in_map_iff. exists (Z.to_nat off). split.
    + f_equal; [f_equal; unfold off, voxel_offset in *; unfold in_volume in V; nia | exact Lv].
    + apply in_seq. lia.
Qed.

Lemma mask_of_run (p : Process) c w t :
  run p = Some (c, w, t) ->
  exists sc, mask w = SetScalars sc (mask (world_at_loop p)) /\
             List.length sc = List.length (Scalars (mask (world_at_loop p))).
Proof.
  intros R. apply run_inv in R. cbv zeta in R. destruct R as (_ & B & -> & _).
  eexists. split; [reflexivity|].
  set (n := loop_count _) in *. set (W := world_at_loop p) in *. clearbody n W.
  unfold in_bounds in B. destruct (Nat.eq_dec n 0) as [->|N].
  - simpl. rewrite blit_nil. reflexivity.
  - rewrite (proj2 (Nat.eqb_neq n 0) N) in B. simpl in B.
    destruct (ptr W) as [|k]; [discriminate|].
    apply andb_true_iff in B. destruct B as [B1 B2]. apply Z.leb_le in B1, B2.
    apply blit_length. rewrite length_map, length_seq. simpl. lia.
Qed.

(** C3: a voxel at which the cylinder's implicit function is exactly 0
    gets the mask value 255; more generally the value is 255 wherever the
    function is not above 0 (inside or on the surface) and 0 wherever it
    is above 0 (strictly outside). *)
Theorem C3_surface_voxel_gets_255 (p : Process) (vol : vtkImageData) c w t (x y z : Z) :
  files p input_path = Some vol ->
  run p = Some (c, w, t) ->
  in_volume (GetDimensions vol) x y z ->
  let f := EvaluateFunction (cylinder w) (d_of_int x) (d_of_int z) (d_of_int y) in
  let v := nth_error (Scalars (mask w))
                     (Z.to_nat (voxel_offset (GetDimensions vol) x y z)) in
  (d_eqb f (d_of_int 0) = true -> v = Some (d_of_int 255)) /\
  (d_gtb f (d_of_int 0) = false -> v = Some (d_of_int 255)) /\
  (d_gtb f (d_of_int 0) = true -> v = Some (d_of_int 0)).
Proof.
  intros F R V f v. pose proof (volume_of_file p vol F) as Ev. subst vol.
  destruct (mask_at_voxel p c w t x y z R V) as [E _].
  unfold mask_value in E. fold f in E. subst v.
  repeat split; intros G.
  - apply d_gtb_eqb in G. rewrite G in E. exact E.
  - rewrite G in E. exact E.
  - rewrite G in E. exact E.
Qed.

(** C5: for the voxel with loop indices (x, y, z) the implicit function is
    evaluated at the point (x, z, y) of integer indices, y and z swapped,
    whatever the origin and spacing of the volume; the cylinder's center
    is origin[i] + spacing[i] * 0.5 * (extent[2i] + extent[2i+1]) on each
    axis and its radius dims[0]/2.0 - 50. *)
Theorem C5_evaluated_at_swapped_index_point
    (p : Process) (vol : vtkImageData) c w t (x y z : Z) :
  files p input_path = Some vol ->
  run p = Some (c, w, t) ->
  in_volume (GetDimensions vol) x y z ->
  let off := voxel_offset (GetDimensions vol) x y z in
  let f := vtkCylinder_EvaluateFunction (cylinder w) (d_of_int x, d_of_int z, d_of_int y) in
  let byte := if d_gtb f (d_of_int 0) then 0 else 255 in
  Center (cylinder w)
  = (d_add (at3 (Origin vol) 0)
           (d_mul (d_mul (at3 (Spacing vol) 0) d_half)
                  (d_of_int (int_add (e0 (Extent vol)) (e1 (Extent vol))))),
     d_add (at3 (Origin vol) 1)
           (d_mul (d_mul (at3 (Spacing vol) 1) d_half)
                  (d_of_int (int_add (e2 (Extent vol)) (e3 (Extent vol))))),
     d_add (at3 (Origin vol) 2)
           (d_mul (d_mul (at3 (Spacing vol) 2) d_half)
                  (d_of_int (int_add (e4 (Extent vol)) (e5 (Extent vol)))))) /\
  Radius (cylinder w)
  = d_sub (d_div (d_of_int (at3 (GetDimensions vol) 0)) (d_of_int 2)) (d_of_int 50) /\
  In (Store (Off off) byte) t /\
  nth_error (Scalars (mask w)) (Z.to_nat off) = Some (d_of_int byte).
Proof.
  intros F R V off f byte. pose proof (volume_of_file p vol F) as Ev. subst vol.
  destruct (mask_at_voxel p c w t x y z R V) as [E I].
  apply run_inv in R. cbv zeta in R. destruct R as (_ & _ & Ew & _).
  assert (Ec : cylinder w = cylinder (world_at_loop p)) by (rewrite Ew; reflexivity).
  assert (Eb : mask_value (cylinder w) x y z = byte).
  { unfold mask_value, byte, f, EvaluateFunction. destruct (d_gtb _ _); reflexivity. }
  rewrite Eb in E, I. rewrite Ec. repeat split; assumption.
Qed.

(** C4: the mask has the dimensions, the extent and the spacing of the
    volume read from the file, one unsigned 8-bit component per voxel,
    and a buffer of one byte per voxel of the volume. *)
Theorem C4_mask_same_shape_byte_type (p : Process) (vol : vtkImageData) c w t :
  files p input_path = Some vol ->
  run p = Some (c, w, t) ->
  GetDimensions (mask w) = GetDimensions vol /\
  Extent (mask w) = Extent vol /\
  Spacing (mask w) = Spacing vol /\
  ScalarTypeOf (mask w) = VTK_UNSIGNED_CHAR /\
  NumberOfScalarComponents (mask w) = 1 /\
  List.length (Scalars (mask w)) = Z.to_nat (NumberOfPoints vol).
Proof.
  intros F R. pose proof (volume_of_file p vol F) as Ev. subst vol.
  destruct (mask_of_run p c w t R) as (sc & -> & L).
  rewrite mask_at_loop in *. cbn [Scalars] in L.
  rewrite repeat_length, Z.mul_1_r in L.
  repeat split. exact L.
Qed.

(** C6: the mask's origin is (extent[0], extent[2], extent[4]), the minimum
    indices of the extent, and not the volume's origin; its spacing is the
    volume's.  On an axis where the volume's origin differs from the
    minimum index, the two origins differ, and so do the physical points
    of index (0, 0, 0) in the mask and in the volume, wherever [==] is
    symmetric and transitive and index 0 is mapped to the origin (as it is
    in double for a finite origin and spacing). *)
Theorem C6_mask_origin_is_extent_minimum (p : Process) (vol : vtkImageData) c w t :
  files p input_path = Some vol ->
  run p = Some (c, w, t) ->
  Origin (mask w)
  = (d_of_int (e0 (Extent vol)), d_of_int (e2 (Extent vol)), d_of_int (e4 (Extent vol))) /\
  Spacing (mask w) = Spacing vol /\
  (Origin vol
   <> (d_of_int (e0 (Extent vol)), d_of_int (e2 (Extent vol)), d_of_int (e4 (Extent vol))) ->
   Origin (mask w) <> Origin vol) /\
  forall i, 0 <= i <= 2 ->
    d_eqb (at3 (Origin vol) i) (d_of_int (at6 (Extent vol) (2 * i))) = false ->
    d_eqb (at3 (Origin vol) i) (at3 (Origin (mask w)) i) = false /\
    ((forall a b : D, d_eqb a b = d_eqb b a) ->
     (forall a b s : D, d_eqb a b = true -> d_eqb b s = true -> d_eqb a s = true) ->
     d_eqb (at3 (IndexToPhysical vol 0 0 0) i) (at3 (Origin vol) i) = true ->
     d_eqb (at3 (IndexToPhysical (mask w) 0 0 0) i) (at3 (Origin (mask w)) i) = true ->
     d_eqb (at3 (IndexToPhysical vol 0 0 0) i) (at3 (IndexToPhysical (mask w) 0 0 0) i)
     = false).
Proof.
  intros F R. pose proof (volume_of_file p vol F) as Ev. subst vol.
  destruct (mask_of_run p c w t R) as (sc & -> & _).
  rewrite mask_at_loop. cbn [SetScalars Origin Spacing].
  split; [reflexivity|]. split; [reflexivity|]. split.
  - intros N E. apply N. symmetry. exact E.
  - intros i I Ne.
    assert (Eo : at3 (d_of_int (e0 (Extent (volume_of p))),
                      d_of_int (e2 (Extent (volume_of p))),
                      d_of_int (e4 (Extent (volume_of p)))) i
                 = d_of_int (at6 (Extent (volume_of p)) (2 * i))).
    { assert (C : i = 0 \/ i = 1 \/ i = 2) by lia.
      destruct C as [-> | [-> | ->]]; reflexivity. }
    split; [rewrite Eo; exact Ne|].
    intros Sym Trans Hv Hm. apply not_true_is_false. intros Same.
    rewrite Eo in Hm. rewrite Sym in Hv.
    pose proof (Trans _ _ _ Hv (Trans _ _ _ Same Hm)) as E.
    rewrite Ne in E. discriminate.
Qed.



Lemma calls_on_steps (r : string) (f : nat -> Ptr) (g : nat -> Z) (l : list nat) :
  calls_on r (steps_load ++ steps_mask_setup ++ map (fun j => Store (f j) (g j)) l
              ++ steps_after_loop)
  = calls_on r steps_load ++ calls_on r steps_mask_setup ++ calls_on r steps_after_loop.
Proof.
  unfold calls_on. rewrite !filter_app. do 2 f_equal.
  replace (filter _ (map (fun j => Store (f j) (g j)) l)) with (@nil Event);
    [reflexivity|].
  induction l as [|j l IH]; simpl; [reflexivity | exact IH].
Qed.

Lemma loaded_of_files (p1 p2 : Process) :
  loaded p1 = loaded p2 <-> files p1 input_path = files p2 input_path.
Proof.
  unfold loaded, reader_Update. cbn [FileName].
  split.
  - destruct (files p1 input_path), (files p2 input_path); intros E;
      try discriminate; [injection E as ->|]; reflexivity.
  - intros ->. reflexivity.
Qed.

(** C8: the one file the program reads is "Data/CTHead.vti".  Two
    processes that agree on its contents run identically, whatever their
    arguments, environment and other files.  In every defined run the
    reader carries that file name, is called on twice (SetFileName, Update)
    and holds the file's contents as its output, or the empty image and an
    error code when the file cannot be read.  Two processes that differ on
    the file's contents do not run identically. *)
Theorem C8_only_the_fixed_file_matters (p1 p2 : Process) :
  (files p1 "Data/CTHead.vti" = files p2 "Data/CTHead.vti" -> run p1 = run p2) /\
  (forall c w t, run p1 = Some (c, w, t) ->
     FileName (reader w) = Some "Data/CTHead.vti"%string /\
     calls_on "reader" t = [Call "reader" "SetFileName"; Call "reader" "Update"] /\
     match files p1 "Data/CTHead.vti" with
     | Some vol => ReaderOutput (reader w) = vol /\ ErrorCode (reader w) = 0
     | None => ReaderOutput (reader w) = new_vtkImageData /\ ErrorCode (reader w) <> 0
     end) /\
  (files p1 "Data/CTHead.vti" <> files p2 "Data/CTHead.vti" ->
   run p1 <> None -> run p1 <> run p2).
Proof.
  change "Data/CTHead.vti"%string with input_path at 1 2 4 5 6.
  split; [|split].
  - intros F. apply loaded_of_files in F.
    rewrite !run_eq. unfold world_at_loop, volume_of. rewrite F. reflexivity.
  - intros c w t R. apply run_inv in R. cbv zeta in R. destruct R as (_ & _ & -> & ->).
    rewrite calls_on_steps.
    cbn [reader world_at_exit stored set_ptr on_mask world_at_loop].
    unfold loaded, reader_Update. cbn [FileName].
    destruct (files p1 input_path); repeat split. discriminate.
  - intros F Def E. apply F, loaded_of_files.
    destruct (run p1) as [[[c w] t]|] eqn:R1; [|contradiction].
    symmetry in E. apply run_inv in R1, E. cbv zeta in R1, E.
    destruct R1 as (_ & _ & E1 & _). destruct E as (_ & _ & E2 & _).
    apply (f_equal reader) in E1, E2.
    cbn [reader world_at_exit stored set_ptr on_mask world_at_loop] in E1, E2.
    rewrite <- E1, <- E2. reflexivity.
Qed.

Lemma calls_stores (f : nat -> Ptr) (g : nat -> Z) (l : list nat) :
  calls (map (fun j => Store (f j) (g j)) l) = [].
Proof. induction l as [|j l IH]; simpl; [reflexivity | exact IH]. Qed.

(** C9: [main] never looks at the outcome of a step.  Whenever it returns
    it returns EXIT_SUCCESS, after the same toolkit calls in the same
    order whatever the file held; and when the file cannot be read it
    still goes through every one of them and returns EXIT_SUCCESS, the
    reader's error code left unexamined. *)
Theorem C9_no_error_handling (p : Process) :
  (forall c w t, run p = Some (c, w, t) -> c = EXIT_SUCCESS /\ calls t = program_calls) /\
  (files p input_path = None ->
   exists w, run p = Some (EXIT_SUCCESS, w, program_calls) /\ ErrorCode (reader w) <> 0).
Proof.
  split.
  - intros c w t R. apply run_inv in R. cbv zeta in R. destruct R as (-> & _ & _ & ->).
    split; [reflexivity|].
    unfold calls. rewrite !filter_app. fold (calls (map
      (fun j => Store (Off (base (ptr (world_at_loop p)) + Z.of_nat j))
                  (loop_value (cylinder (world_at_loop p)) (GetDimensions (volume_of p)) j))
      (seq 0 (loop_count (GetDimensions (volume_of p)))))).
    rewrite (calls_stores (fun j => Off (base (ptr (world_at_loop p)) + Z.of_nat j))).
    reflexivity.
  - intros F.
    assert (V : loaded p = mkReader (Some input_path) new_vtkImageData 1).
    { unfold loaded, reader_Update. cbn [FileName]. rewrite F. reflexivity. }
    rewrite run_eq, fill_at_loop. unfold world_at_loop, volume_of. rewrite V.
    cbn [ReaderOutput]. eexists. split; [reflexivity|]. simpl. discriminate.
Qed.

Ltac segment := split; [discriminate | repeat constructor].

Lemma phase_segment_app (ph : Phase) (l1 l2 : list Event) :
  phase_segment ph l1 -> Forall (fun e => phase_of e = Some ph) l2 ->
  phase_segment ph (l1 ++ l2).
Proof.
  intros [N F1] F2. split.
  - destruct l1; [contradiction | discriminate].
  - apply Forall_app. split; assumption.
Qed.

(** C10: the steps of a run come in this order: the file is loaded; then
    the volume's parameters are fetched and the mask is set up and filled
    (every store through [ptr] happens here); then the reslice,
    shift-scale and multiply filters are configured; then the volume
    mapper, the transfer functions and the volume; then the slice's colour
    map and the outline; then the render window, renderers and interactor;
    and [iren->Start()], the event loop, is last. *)
Theorem C10_steps_in_fixed_order (p : Process) c w t :
  run p = Some (c, w, t) ->
  exists stores,
    t = steps_load ++ (steps_mask_setup ++ stores) ++ steps_slice_chain
        ++ steps_mapper_transfer ++ steps_slice_outline ++ steps_render
        ++ [Call "iren" "Start"] /\
    Forall (fun e => is_store e = true) stores /\
    List.length stores = loop_count (GetDimensions (volume_of p)) /\
    phase_segment LoadFile steps_load /\
    phase_segment ComputeMask (steps_mask_setup ++ stores) /\
    phase_segment SliceChain steps_slice_chain /\
    phase_segment MapperAndTransferFunctions steps_mapper_transfer /\
    phase_segment SliceActorAndOutline steps_slice_outline /\
    phase_segment RenderersAndInteractor steps_render /\
    phase_of (Call "iren" "Start") = Some EventLoop.
Proof.
  intros R. apply run_inv in R. cbv zeta in R. destruct R as (_ & _ & _ & ->).
  exists (map (fun j => Store (Off (base (ptr (world_at_loop p)) + Z.of_nat j))
                          (loop_value (cylinder (world_at_loop p))
                                      (GetDimensions (volume_of p)) j))
              (seq 0 (loop_count (GetDimensions (volume_of p))))).
  split; [|split; [|split]].
  - unfold steps_after_loop. rewrite <- !app_assoc. reflexivity.
  - apply Forall_map, Forall_forall. reflexivity.
  - rewrite length_map, length_seq. reflexivity.
  - repeat (split; [first [ segment | apply phase_segment_app; [segment|] ] |]);
      [apply Forall_map, Forall_forall | ]; reflexivity.
Qed.

(** A volume whose extent starts at index (0, 0, 0) gives a defined run. *)
Lemma zero_based_run_is_defined (p : Process) :
  e0 (Extent (volume_of p)) = 0 -> e2 (Extent (volume_of p)) = 0 ->
  e4 (Extent (volume_of p)) = 0 ->
  exists w t, run p = Some (EXIT_SUCCESS, w, t).
Proof.
  intros Z0 Z2 Z4. rewrite run_eq, fill_at_loop. cbv zeta. unfold block_result.
  set (dims := GetDimensions (volume_of p)).
  assert (B : in_bounds (ptr (world_at_loop p)) (loop_count dims)
                (List.length (Scalars (mask (world_at_loop p)))) = true).
  { unfold in_bounds. destruct (Nat.eq_dec (loop_count dims) 0) as [E|N].
    - rewrite E. reflexivity.
    - rewrite (proj2 (Nat.eqb_neq _ 0) N). cbn [orb].
      assert (P : 0 < at3 dims 0 /\ 0 < at3 dims 1 /\ 0 < at3 dims 2).
      { unfold loop_count in N. lia. }
      rewrite (buffer_length p) by (fold dims; lia). fold dims.
      unfold world_at_loop. cbn [ptr]. unfold GetScalarPointer.
      cbn [Extent AllocateScalars SetExtent GetDimensions e0 e1 e2 e3 e4 e5].
      rewrite Z0, Z2, Z4. subst dims. unfold GetDimensions in P. simpl at3 in P.
      rewrite Z0, Z2, Z4 in P.
      repeat match goal with
             | |- context [?a <? ?b] => destruct (Z.ltb_spec a b); try lia
             end.
      cbn [orb]. apply andb_true_iff. split; apply Z.leb_le; lia. }
  rewrite B. eauto.
Qed.
(** A volume with voxels whose extent does not start at index (0, 0, 0)
    gives an undefined run: [ptr] is null or inside the buffer, and the
    loop stores as many bytes as the whole buffer holds. *)
Lemma displaced_extent_run_is_undefined (p : Process) :
  let vol := volume_of p in
  let dims := GetDimensions vol in
  0 < at3 dims 0 -> 0 < at3 dims 1 -> 0 < at3 dims 2 ->
  e0 (Extent vol) <> 0 \/ e2 (Extent vol) <> 0 \/ e4 (Extent vol) <> 0 ->
  run p = None.
Proof.
  intros vol dims P0 P1 P2 N. rewrite run_eq, fill_at_loop. cbv zeta. fold vol dims.
  unfold block_result.
  destruct (in_bounds _ _ _) eqn:B; [exfalso|reflexivity].
  rewrite (buffer_length p) in B by (fold vol dims; lia). fold vol dims in B.
  apply in_bounds_full in B; [|unfold loop_count; lia].
  unfold world_at_loop in B. cbn [ptr] in B. unfold GetScalarPointer in B.
  cbn [Extent AllocateScalars SetExtent GetDimensions e0 e1 e2 e3 e4 e5] in B.
  fold vol in B. subst dims. unfold GetDimensions in P0, P1, P2. simpl at3 in P0, P1, P2.
  destruct (_ || _) eqn:O in B; [discriminate|].
  repeat (apply orb_false_iff in O; destruct O as [O ?]).
  repeat match goal with
         | H : (_ <? _) = false |- _ => apply Z.ltb_ge in H
         end.
  injection B as B. nia.
Qed.

End Main.

(** * Concrete runs *)

Import Exact.

(** Evaluates a concrete run and names its exit code, state and steps. *)
Ltac evaluate_run p R :=
  let v := eval vm_compute in (run_exact p) in
  lazymatch v with
  | Some (?c, ?w, ?t) =>
      assert (R : run_exact p = Some (c, w, t)) by (vm_compute; reflexivity);
      exists c, w, t; split; [exact R|]
  end.

Ltac conj_by_evaluation :=
  repeat match goal with |- _ /\ _ => split end; vm_compute; reflexivity.

(** C1: a volume of 103 x 1 x 5 voxels with origin 0 and spacing 1.  The
    voxel (51, 0, 2) sits exactly at the cylinder's center, so it is
    within the radius 1.5 under any geometric reading, and the program
    stores 0 for it: the loop evaluates the function at (51, 2, 0). *)
Theorem C1_center_voxel_masked_out :
  exists w t,
    run_exact (process_with (Some ct_flat)) = Some (EXIT_SUCCESS, w, t) /\
    GetDimensions ct_flat = (103, 1, 5) /\
    same_point (IndexToPhysical ct_flat 51 0 2) (Center (cylinder w)) = true /\
    d_eqb (d_add (Radius (cylinder w)) (Radius (cylinder w))) (d_of_int 3) = true /\
    voxel_within_cylinder ct_flat (cylinder w) 51 0 2 = true /\
    nth_error (Scalars (mask w)) (Z.to_nat (voxel_offset (103, 1, 5) 51 0 2))
    = Some (d_of_int 0).
Proof.
  do 2 eexists. split; [vm_compute; reflexivity|].
  conj_by_evaluation.
Qed.

(** C7: a volume whose extent is (-1, 0, 0, 0, 0, 0).  The mask's buffer
    has 2 bytes, [GetScalarPointer(0,0,0)] is the address of its second
    byte, and the loop stores 2 bytes from there: the second store falls
    outside the buffer, and the run is undefined. *)
Theorem C7_store_past_the_buffer :
  let p := process_with (Some ct_negative_extent) in
  let W := world_at_loop (Q2Qc 0) p in
  GetDimensions ct_negative_extent = (2, 1, 1) /\
  List.length (Scalars (mask W)) = 2%nat /\
  ptr W = Off 1 /\
  loop_count (2, 1, 1) = 2%nat /\
  run_exact p = None.
Proof.
  cbv zeta. conj_by_evaluation.
Qed.

(** A volume of 103 x 3 x 2 voxels: center (51, 1, 0.5), radius 1.5.  For
    voxel (51, 2, 0) the function at (51, 0, 2) is 0 + 1.5^2 - 1.5^2 = 0, and
    the mask holds 255 there. *)
Lemma C3_witness :
  exists c w t,
    run_exact (process_with (Some ct_surface)) = Some (c, w, t) /\
    d_eqb (EvaluateFunction (cylinder w) (d_of_int 51) (d_of_int 0) (d_of_int 2))
          (d_of_int 0) = true /\
    nth_error (Scalars (mask w)) (Z.to_nat (voxel_offset (103, 3, 2) 51 2 0))
    = Some (d_of_int 255).
Proof.
  evaluate_run (process_with (Some ct_surface)) R.
  split; [vm_compute; reflexivity|].
  refine (proj1 (C3_surface_voxel_gets_255 ResliceExecute ShiftScalePixel MathPixel
                   (Q2Qc 0) (process_with (Some ct_surface)) ct_surface _ _ _ 51 2 0
                   eq_refl R _) _).
  - unfold in_volume. simpl. lia.
  - vm_compute; reflexivity.
Defined.

(** The same volume: voxel (51, 2, 0) at offset 257 gets 255, and voxel
    (52, 2, 0) at offset 258, where the function is 1, gets 0. *)
Lemma C5_witness :
  exists c w t,
    run_exact (process_with (Some ct_surface)) = Some (c, w, t) /\
    In (Store (Off 257) 255) t /\
    In (Store (Off 258) 0) t.
Proof.
  evaluate_run (process_with (Some ct_surface)) R.
  assert (V : forall x, 0 <= x < 103 -> in_volume (GetDimensions ct_surface) x 2 0)
    by (intros x X; unfold in_volume; simpl; lia).
  split.
  - pose proof (proj1 (proj2 (proj2
             (C5_evaluated_at_swapped_index_point ResliceExecute ShiftScalePixel MathPixel
                (Q2Qc 0) (process_with (Some ct_surface)) ct_surface _ _ _ 51 2 0
                eq_refl R (V 51 ltac:(lia)))))) as K.
    vm_compute in K |- *. exact K.
  - pose proof (proj1 (proj2 (proj2
             (C5_evaluated_at_swapped_index_point ResliceExecute ShiftScalePixel MathPixel
                (Q2Qc 0) (process_with (Some ct_surface)) ct_surface _ _ _ 52 2 0
                eq_refl R (V 52 ltac:(lia)))))) as K.
    vm_compute in K |- *. exact K.
Defined.

(** The same volume: the mask has 103 x 3 x 2 unsigned bytes. *)
Lemma C4_witness :
  exists c w t,
    run_exact (process_with (Some ct_surface)) = Some (c, w, t) /\
    GetDimensions (mask w) = (103, 3, 2) /\
    ScalarTypeOf (mask w) = VTK_UNSIGNED_CHAR /\
    List.length (Scalars (mask w)) = 618%nat.
Proof.
  evaluate_run (process_with (Some ct_surface)) R.
  destruct (C4_mask_same_shape_byte_type ResliceExecute ShiftScalePixel MathPixel
              (Q2Qc 0) (process_with (Some ct_surface)) ct_surface _ _ _ eq_refl R)
    as (Dm & _ & _ & Ty & _ & Len).
  repeat split; assumption.
Defined.

(** A volume with origin (10, 20, 30) whose extent starts at (5, 7, 9): the
    mask's origin is (5, 7, 9).  A volume with origin (10, 20, 30) whose
    extent starts at (0, 0, 0): on the x axis index 0 lies at 10 in the
    volume and at 0 in the mask. *)
Lemma C6_witness :
  (exists c w t,
     run_exact (process_with (Some ct_displaced)) = Some (c, w, t) /\
     same_point (Origin (mask w)) (qc 5, qc 7, qc 9) = true) /\
  (exists c w t,
     run_exact (process_with (Some ct_shifted)) = Some (c, w, t) /\
     d_eqb (at3 (IndexToPhysical ct_shifted 0 0 0) 0)
           (at3 (IndexToPhysical (mask w) 0 0 0) 0) = false).
Proof.
  split.
  - evaluate_run (process_with (Some ct_displaced)) R.
    rewrite (proj1 (C6_mask_origin_is_extent_minimum ResliceExecute ShiftScalePixel
                      MathPixel (Q2Qc 0) (process_with (Some ct_displaced)) ct_displaced
                      _ _ _ eq_refl R)).
    vm_compute. reflexivity.
  - evaluate_run (process_with (Some ct_shifted)) R.
    refine (proj2 (proj2 (proj2 (proj2
              (C6_mask_origin_is_extent_minimum ResliceExecute ShiftScalePixel
                 MathPixel (Q2Qc 0) (process_with (Some ct_shifted)) ct_shifted
                 _ _ _ eq_refl R))) 0 _ _) _ _ _ _).
    + lia.
    + vm_compute. reflexivity.
    + intros a b. cbn [d_eqb Qc_DoubleOps].
      destruct (Qeq_bool a b) eqn:E1, (Qeq_bool b a) eqn:E2; try reflexivity.
      * apply Qeq_bool_iff, Qeq_sym, Qeq_bool_iff in E1. congruence.
      * apply Qeq_bool_iff, Qeq_sym, Qeq_bool_iff in E2. congruence.
    + intros a b s E1 E2. cbn [d_eqb Qc_DoubleOps] in *.
      apply Qeq_bool_iff in E1, E2. apply Qeq_bool_iff.
      exact (Qeq_trans _ _ _ E1 E2).
    + vm_compute. reflexivity.
    + vm_compute. reflexivity.
Defined.


(** Two processes with different arguments, environment and other files
    and the same input file run identically, the reader holding that
    file; a process whose input file holds other voxels runs otherwise. *)
Lemma C8_witness :
  argv (process_with (Some ct_shifted)) <> argv (process_elsewhere (Some ct_shifted)) /\
  run_exact (process_with (Some ct_shifted)) = run_exact (process_elsewhere (Some ct_shifted)) /\
  (exists c w t,
     run_exact (process_with (Some ct_shifted)) = Some (c, w, t) /\
     ReaderOutput (reader w) = ct_shifted) /\
  run_exact (process_with (Some ct_shifted))
  <> run_exact (process_with (Some ct_shifted_short)).
Proof.
  split; [discriminate|]. split; [|split].
  - apply (proj1 (C8_only_the_fixed_file_matters ResliceExecute ShiftScalePixel MathPixel
             (Q2Qc 0) (process_with (Some ct_shifted))
             (process_elsewhere (Some ct_shifted)))).
    reflexivity.
  - evaluate_run (process_with (Some ct_shifted)) R.
    destruct (proj1 (proj2
                (C8_only_the_fixed_file_matters ResliceExecute ShiftScalePixel MathPixel
                   (Q2Qc 0) (process_with (Some ct_shifted))
                   (process_with (Some ct_shifted)))) _ _ _ R) as (_ & _ & K).
    exact (proj1 K).
  - apply (proj2 (proj2 (C8_only_the_fixed_file_matters ResliceExecute ShiftScalePixel
             MathPixel (Q2Qc 0) (process_with (Some ct_shifted))
             (process_with (Some ct_shifted_short))))).
    + intros E. apply (f_equal (option_map ScalarTypeOf)) in E. discriminate.
    + vm_compute. discriminate.
Defined.

(** A volume of 2 x 2 x 1 voxels: four stores, inside the mask phase. *)
Lemma C10_witness :
  exists c w t,
    run_exact (process_with (Some ct_shifted)) = Some (c, w, t) /\
    exists stores,
      t = steps_load ++ (steps_mask_setup ++ stores) ++ steps_slice_chain
          ++ steps_mapper_transfer ++ steps_slice_outline ++ steps_render
          ++ [Call "iren" "Start"] /\
      List.length stores = 4%nat.
Proof.
  evaluate_run (process_with (Some ct_shifted)) R.
  destruct (C10_steps_in_fixed_order ResliceExecute ShiftScalePixel MathPixel
              (Q2Qc 0) (process_with (Some ct_shifted)) _ _ _ R)
    as (stores & T & _ & L & _).
  exists stores. split; [exact T | exact L].
Defined.

(** * Further properties of [main] *)

Section More.

Context {D : Type} `{DoubleOps D}.
Variable ResliceExecute : @ResliceParams D -> @vtkImageData D -> @vtkImageData D.
Variable ShiftScalePixel : D -> D -> ScalarType -> D -> D.
Variable MathPixel : MathOp -> ScalarType -> D -> D -> D.
Variable fresh_memory : D.

Local Abbreviation World := (@World D).
Local Abbreviation Process := (@Process D).
Local Abbreviation vtkImageData := (@vtkImageData D).
Local Abbreviation run := (run ResliceExecute ShiftScalePixel MathPixel fresh_memory).
Local Abbreviation world_at_loop := (world_at_loop fresh_memory).
Local Abbreviation world_at_exit := (world_at_exit ResliceExecute ShiftScalePixel MathPixel).
Local Abbreviation run_inv := (run_inv ResliceExecute ShiftScalePixel MathPixel fresh_memory).
Local Abbreviation run_eq := (run_eq ResliceExecute ShiftScalePixel MathPixel fresh_memory).

Lemma loop_count_positive (dims : Z * Z * Z) :
  loop_count dims <> 0%nat <-> 0 < at3 dims 0 /\ 0 < at3 dims 1 /\ 0 < at3 dims 2.
Proof. unfold loop_count. split; [lia | nia]. Qed.

Lemma stores_of_steps (f : nat -> Ptr) (g : nat -> Z) (l : list nat) :
  stores (steps_load ++ steps_mask_setup ++ map (fun j => Store (f j) (g j)) l
          ++ steps_after_loop)
  = map (fun j => Store (f j) (g j)) l.
Proof.
  unfold stores. rewrite !filter_app.
  change (filter is_store steps_load) with (@nil Event).
  change (filter is_store steps_mask_setup) with (@nil Event).
  change (filter is_store steps_after_loop) with (@nil Event).
  rewrite app_nil_r. simpl. induction l as [|j l IH]; simpl; [reflexivity | f_equal; exact IH].
Qed.

(** A defined run over a volume with voxels: the loop's stores start at
    the first byte of the buffer and fill it. *)
Lemma run_over_voxels (p : Process) c w t :
  run p = Some (c, w, t) ->
  let dims := GetDimensions (volume_of p) in
  let W := world_at_loop p in
  let n := loop_count dims in
  let g := loop_value (cylinder W) dims in
  n <> 0%nat ->
  List.length (Scalars (mask W)) = n /\
  w = world_at_exit (center_of (volume_of p))
        (stored (Off (Z.of_nat n)) (map (fun j => d_of_int (g j)) (seq 0 n)) W) /\
  t = steps_load ++ steps_mask_setup
      ++ map (fun j => Store (Off (Z.of_nat j)) (g j)) (seq 0 n) ++ steps_after_loop.
Proof.
  intros R dims W n g N. apply run_inv in R. cbv zeta in R.
  fold dims W n g in R. destruct R as (_ & B & -> & ->).
  assert (P : 0 < at3 dims 0 /\ 0 < at3 dims 1 /\ 0 < at3 dims 2)
    by (apply loop_count_positive; exact N).
  assert (Len : List.length (Scalars (mask W)) = n)
    by (apply (buffer_length fresh_memory p); fold dims; lia).
  rewrite Len in B. apply in_bounds_full in B; [|lia].
  rewrite B. cbn [base advance Z.to_nat Z.add].
  rewrite blit_all by (rewrite length_map, length_seq; symmetry; exact Len).
  repeat split. exact Len.
Qed.

(** X1: a run is defined exactly when the loop has no voxel to visit or
    the volume's extent starts at index (0, 0, 0); otherwise a store goes
    through a null pointer or past the end of the mask's buffer. *)
Theorem X1_run_defined_iff (p : Process) :
  let vol := volume_of p in
  (exists c w t, run p = Some (c, w, t)) <->
  (loop_count (GetDimensions vol) = 0%nat \/
   (e0 (Extent vol) = 0 /\ e2 (Extent vol) = 0 /\ e4 (Extent vol) = 0)).
Proof.
  intros vol. split.
  - intros (c & w & t & R).
    destruct (Nat.eq_dec (loop_count (GetDimensions vol)) 0) as [E|N]; [left; exact E|].
    right. apply loop_count_positive in N. destruct N as (P0 & P1 & P2).
    destruct (Z.eq_dec (e0 (Extent vol)) 0) as [Z0|Z0];
      [destruct (Z.eq_dec (e2 (Extent vol)) 0) as [Z2|Z2];
         [destruct (Z.eq_dec (e4 (Extent vol)) 0) as [Z4|Z4]|]|];
      [repeat split; assumption | exfalso | exfalso | exfalso];
      rewrite (displaced_extent_run_is_undefined ResliceExecute ShiftScalePixel MathPixel
                 fresh_memory p P0 P1 P2) in R; try discriminate; fold vol; tauto.
  - intros [E|(Z0 & Z2 & Z4)].
    + rewrite run_eq, fill_at_loop. cbv zeta. fold vol. rewrite E.
      rewrite block_result_0. eauto.
    + destruct (zero_based_run_is_defined ResliceExecute ShiftScalePixel MathPixel
                  fresh_memory p Z0 Z2 Z4) as (w & t & R). eauto.
Qed.

(** X2: in a defined run over a volume with voxels the loop makes one
    store per byte of the mask's buffer and nothing else: the j-th store
    goes to byte j and holds the value for the voxel x = j mod dims[0],
    y = (j / dims[0]) mod dims[1], z = j / (dims[0] * dims[1]), and the
    buffer ends up holding exactly these values. *)
Theorem X2_every_byte_stored_once (p : Process) c w t :
  run p = Some (c, w, t) ->
  let dims := GetDimensions (volume_of p) in
  let n := loop_count dims in
  n <> 0%nat ->
  stores t = map (fun j => Store (Off (Z.of_nat j)) (loop_value (cylinder w) dims j))
                 (seq 0 n) /\
  Scalars (mask w) = map (fun j => d_of_int (loop_value (cylinder w) dims j)) (seq 0 n) /\
  Z.of_nat n = at3 dims 0 * at3 dims 1 * at3 dims 2.
Proof.
  intros R dims n N. destruct (run_over_voxels p c w t R N) as (_ & -> & ->).
  rewrite stores_of_steps. repeat split.
  apply loop_count_positive in N. fold dims in N. unfold n, loop_count.
  rewrite !Nat2Z.inj_mul, !Z2Nat.id by lia. ring.
Qed.

(** X3: the mask is binary.  Every byte the loop stores is 0 or 255, and
    after a defined run over a volume of non-negative dimensions every
    scalar of the mask is 0 or 255: no byte of the fresh buffer is left as
    it was allocated. *)
Theorem X3_mask_is_binary (p : Process) c w t :
  run p = Some (c, w, t) ->
  let dims := GetDimensions (volume_of p) in
  0 <= at3 dims 0 -> 0 <= at3 dims 1 -> 0 <= at3 dims 2 ->
  Forall (fun s => s = d_of_int 0 \/ s = d_of_int 255) (Scalars (mask w)) /\
  Forall (fun e => exists q, e = Store q 0 \/ e = Store q 255) (stores t).
Proof.
  intros R dims P0 P1 P2.
  assert (V : forall cyl j, loop_value cyl dims j = 0 \/ loop_value cyl dims j = 255).
  { intros cyl j. unfold loop_value, mask_value. destruct (d_gtb _ _); [left | right]; reflexivity. }
  destruct (Nat.eq_dec (loop_count dims) 0) as [E|N].
  - pose proof (buffer_length fresh_memory p P0 P1 P2) as Len. fold dims in Len.
    apply run_inv in R. cbv zeta in R. fold dims in R. destruct R as (_ & _ & -> & ->).
    rewrite stores_of_steps, E. cbn [seq map].
    change (mask (world_at_exit _ (stored ?q ?s _)))
      with (SetScalars s (mask (world_at_loop p))).
    cbn [Scalars SetScalars]. rewrite blit_nil.
    rewrite E in Len. apply length_zero_iff_nil in Len. rewrite Len. split; constructor.
  - destruct (run_over_voxels p c w t R N) as (_ & -> & ->).
    rewrite stores_of_steps. cbn [mask world_at_exit stored set_ptr on_mask SetScalars Scalars].
    split; apply Forall_map, Forall_forall; intros j _; cbv beta.
    + destruct (V (cylinder (world_at_loop p)) j) as [E | E];
        [left | right]; f_equal; exact E.
    + exists (Off (Z.of_nat j)).
      destruct (V (cylinder (world_at_loop p)) j) as [E | E];
        [left | right]; f_equal; exact E.
Qed.

Local Abbreviation mask_at_voxel :=
  (mask_at_voxel ResliceExecute ShiftScalePixel MathPixel fresh_memory).
Local Abbreviation mask_of_run :=
  (mask_of_run ResliceExecute ShiftScalePixel MathPixel fresh_memory).

(** X4: the mask is the same in every z-slice.  The loop passes its z
    counter in the cylinder's y slot, which the function does not read, so
    voxels that differ only in z get the same value. *)
Theorem X4_mask_constant_along_z (p : Process) (vol : vtkImageData) c w t (x y z z' : Z) :
  files p input_path = Some vol ->
  run p = Some (c, w, t) ->
  in_volume (GetDimensions vol) x y z ->
  in_volume (GetDimensions vol) x y z' ->
  nth_error (Scalars (mask w)) (Z.to_nat (voxel_offset (GetDimensions vol) x y z))
  = nth_error (Scalars (mask w)) (Z.to_nat (voxel_offset (GetDimensions vol) x y z')).
Proof.
  intros F R V V'. pose proof (volume_of_file p vol F) as Ev. subst vol.
  destruct (mask_at_voxel p c w t x y z R V) as [E _].
  destruct (mask_at_voxel p c w t x y z' R V') as [E' _].
  rewrite E, E'. reflexivity.
Qed.

Lemma loop_entry_of_geometry (p1 p2 : Process) :
  Origin (volume_of p1) = Origin (volume_of p2) ->
  Spacing (volume_of p1) = Spacing (volume_of p2) ->
  Extent (volume_of p1) = Extent (volume_of p2) ->
  GetDimensions (volume_of p1) = GetDimensions (volume_of p2) /\
  center_of (volume_of p1) = center_of (volume_of p2) /\
  mask (world_at_loop p1) = mask (world_at_loop p2) /\
  ptr (world_at_loop p1) = ptr (world_at_loop p2) /\
  cylinder (world_at_loop p1) = cylinder (world_at_loop p2).
Proof.
  intros O S E. unfold world_at_loop, center_of, GetDimensions.
  cbn [mask ptr cylinder]. rewrite O, S, E. repeat split.
Qed.

(** X5: the mask depends on the volume's geometry alone.  Two volumes
    with the same origin, spacing and extent, whatever their voxel values
    and scalar types, get the same cylinder, the same stores in the same
    order and the same mask; if one run is defined, so is the other. *)
Theorem X5_mask_depends_on_geometry_only
    (p1 p2 : Process) (v1 v2 : vtkImageData) c w t :
  files p1 input_path = Some v1 ->
  files p2 input_path = Some v2 ->
  Origin v1 = Origin v2 -> Spacing v1 = Spacing v2 -> Extent v1 = Extent v2 ->
  run p1 = Some (c, w, t) ->
  exists w', run p2 = Some (c, w', t) /\
             mask w' = mask w /\ cylinder w' = cylinder w /\ ptr w' = ptr w.
Proof.
  intros F1 F2 O S E R.
  pose proof (volume_of_file p1 v1 F1) as E1. pose proof (volume_of_file p2 v2 F2) as E2.
  subst v1 v2.
  destruct (loop_entry_of_geometry p1 p2 O S E) as (Ed & Ec & Em & Ep & Ey).
  apply run_inv in R. cbv zeta in R. destruct R as (-> & B & -> & ->).
  rewrite run_eq, fill_at_loop. cbv zeta. unfold block_result.
  rewrite <- Ed, <- Em, <- Ep, <- Ey, B.
  eexists. split; [reflexivity|].
  cbn [mask cylinder ptr world_at_exit stored set_ptr on_mask]. rewrite <- Em. repeat split.
  symmetry. exact Ey.
Qed.

(** X6: when the file cannot be read the run is defined all the same, on
    the reader's empty output: the mask has the empty extent and no
    scalars, [ptr] is null, no store is made, and the cylinder gets the
    radius 0/2.0 - 50. *)
Theorem X6_unreadable_file_gives_empty_mask (p : Process) :
  files p input_path = None ->
  exists c w t,
    run p = Some (c, w, t) /\
    stores t = [] /\
    Scalars (mask w) = [] /\
    Extent (mask w) = mkExtent 0 (-1) 0 (-1) 0 (-1) /\
    ptr w = Null /\
    Radius (cylinder w) = d_sub (d_div (d_of_int 0) (d_of_int 2)) (d_of_int 50) /\
    Scalars (ReaderOutput (reader w)) = [].
Proof.
  intros F.
  assert (V : loaded p = mkReader (Some input_path) new_vtkImageData 1).
  { unfold loaded, reader_Update. cbn [FileName]. rewrite F. reflexivity. }
  rewrite run_eq, fill_at_loop. unfold world_at_loop, volume_of. rewrite V.
  cbn [ReaderOutput]. do 3 eexists. split; [reflexivity|]. repeat split.
Qed.

(** X7: when the volume's origin is the minimum of its extent, the mask
    lies where the volume lies: every index maps to the same physical
    point in both. *)
Theorem X7_mask_coincides_when_origin_is_extent_minimum
    (p : Process) (vol : vtkImageData) c w t :
  files p input_path = Some vol ->
  run p = Some (c, w, t) ->
  Origin vol
  = (d_of_int (e0 (Extent vol)), d_of_int (e2 (Extent vol)), d_of_int (e4 (Extent vol))) ->
  forall i j k, IndexToPhysical (mask w) i j k = IndexToPhysical vol i j k.
Proof.
  intros F R O i j k. pose proof (volume_of_file p vol F) as Ev. subst vol.
  destruct (mask_of_run p c w t R) as (sc & -> & _).
  rewrite mask_at_loop. unfold IndexToPhysical. cbn [SetScalars Origin Spacing].
  rewrite O. reflexivity.
Qed.

(** X8: the scaled mask is produced in the scalar type of the volume
    slice, not in the mask's own unsigned char, so the two inputs of the
    multiply filter have the same scalar type; its pixels are the pixels of
    the resliced mask shifted by 0 and scaled by 1/255. *)
Theorem X8_scaled_mask_has_type_of_volume_slice (p : Process) c w t :
  run p = Some (c, w, t) ->
  let scaled := ShiftScaleOutput (shiftScale w) in
  let ty := ScalarTypeOf (reslicedVolume w) in
  ScalarTypeOf scaled = ty /\
  ScalarTypeOf (deref_input w (Input1 (imMath w)))
  = ScalarTypeOf (deref_input w (Input2 (imMath w))) /\
  Scalars scaled
  = map (ShiftScalePixel (d_of_int 0) (d_div (d_of_int 1) (d_of_int 255)) ty)
        (Scalars (reslicedMask w)) /\
  Operation (imMath w) = VTK_MULTIPLY.
Proof.
  intros R. apply run_inv in R. cbv zeta in R. destruct R as (_ & _ & -> & _).
  repeat split.
Qed.

(** X10: one reslice filter cuts both slices, with the same plane: the
    2D sagittal plane through the point that is also the cylinder's center,
    with linear interpolation.  After the second execution the filter's own
    output is the mask's slice, while [reslicedVolume], a deep copy taken
    in between, still holds the slice of the volume. *)
Theorem X10_both_slices_through_cylinder_center
    (p : Process) (vol : vtkImageData) c w t :
  files p input_path = Some vol ->
  run p = Some (c, w, t) ->
  let plane := Params (reslice w) in
  ResliceAxesOrigin plane = Center (cylinder w) /\
  OutputDimensionality plane = 2 /\
  InterpolationMode plane = VTK_LINEAR /\
  ResliceAxesDirectionCosines plane = [0; -1; 0;  0; 0; -1;  -1; 0; 0] /\
  reslicedVolume w = ResliceExecute plane vol /\
  reslicedMask w = ResliceExecute plane (mask w) /\
  ResliceOutput (reslice w) = reslicedMask w /\
  ResliceInput (reslice w) = Some mask_Data.
Proof.
  intros F R. pose proof (volume_of_file p vol F) as Ev. subst vol.
  apply run_inv in R. cbv zeta in R. destruct R as (_ & _ & -> & _).
  repeat split.
Qed.

(** X9: the mask is a disc of the index plane, repeated along z, in the
    program's own arithmetic.  The voxel at indices (x, y, z) holds 0 when
    (x - center[0])^2 + (y - center[2])^2 - radius^2 > 0 as the program
    computes it, and 255 otherwise: the loop's y is measured against the
    third coordinate of the center, and neither z nor center[1] enters.
    Where a - b > 0 exactly when a > b, as for doubles (the difference of
    two unequal numbers is never rounded to zero), the test is
    (x - center[0])^2 + (y - center[2])^2 > radius^2 on the computed
    squares; the radius enters only through its square, so the negative
    radius of a volume less than 100 voxels wide acts as its absolute
    value. *)
Theorem X9_mask_is_a_disc_of_the_index_plane
    (p : Process) (vol : vtkImageData) c w t (x y z : Z) :
  files p input_path = Some vol ->
  run p = Some (c, w, t) ->
  in_volume (GetDimensions vol) x y z ->
  let dx := d_sub (d_of_int x) (at3 (Center (cylinder w)) 0) in
  let dy := d_sub (d_of_int y) (at3 (Center (cylinder w)) 2) in
  let r := Radius (cylinder w) in
  let v := nth_error (Scalars (mask w))
                     (Z.to_nat (voxel_offset (GetDimensions vol) x y z)) in
  v = Some (d_of_int
              (if d_gtb (d_sub (d_add (d_mul dx dx) (d_mul dy dy)) (d_mul r r)) (d_of_int 0)
               then 0 else 255)) /\
  ((forall a b : D, d_gtb (d_sub a b) (d_of_int 0) = d_gtb a b) ->
   v = Some (d_of_int
               (if d_gtb (d_add (d_mul dx dx) (d_mul dy dy)) (d_mul r r)
                then 0 else 255))).
Proof.
  intros F R V dx dy r v.
  pose proof (volume_of_file p vol F) as Ev. subst vol.
  destruct (mask_at_voxel p c w t x y z R V) as [E _].
  fold v in E. unfold mask_value, EvaluateFunction, vtkCylinder_EvaluateFunction in E.
  cbn [at3 Z.eqb] in E. fold dx dy r in E.
  assert (B : forall b : bool, to_uchar (if b then 0 else 255) = if b then 0 else 255)
    by (intros [|]; reflexivity).
  rewrite B in E. split; [exact E|].
  intros Above. rewrite <- Above. exact E.
Qed.

End More.

(** ** Exact arithmetic: a difference is above zero exactly when its first
    term is above its second *)

Lemma not_above_zero (a b : Qc) :
  d_gtb (d_sub a b) (d_of_int 0) = false <-> (a <= b)%Qc.
Proof.
  cbn [d_gtb d_sub d_of_int Qc_DoubleOps]. rewrite negb_false_iff, Qle_bool_iff.
  change ((a - b <= 0)%Qc <-> (a <= b)%Qc).
  rewrite (Qcle_minus_iff (a - b) 0), (Qcle_minus_iff a b).
  replace (0 + - (a - b))%Qc with (b + - a)%Qc by ring. reflexivity.
Qed.

Lemma above_zero (a b : Qc) :
  d_gtb (d_sub a b) (d_of_int 0) = d_gtb a b.
Proof.
  pose proof (not_above_zero a b) as N.
  assert (G : d_gtb a b = false <-> (a <= b)%Qc).
  { cbn [d_gtb Qc_DoubleOps]. rewrite negb_false_iff, Qle_bool_iff. reflexivity. }
  destruct (d_gtb (d_sub a b) (d_of_int 0)), (d_gtb a b); try reflexivity.
  - apply N, G. reflexivity.
  - symmetry. apply G, N. reflexivity.
Qed.

(** ** Concrete runs for the further properties *)

(** A volume of 2 x 2 x 1 voxels: four stores, to bytes 0, 1, 2, 3. *)
Lemma X2_witness :
  exists c w t,
    run_exact (process_with (Some ct_shifted)) = Some (c, w, t) /\
    stores t = [Store (Off 0) 255; Store (Off 1) 255; Store (Off 2) 255; Store (Off 3) 255] /\
    List.length (Scalars (mask w)) = 4%nat.
Proof.
  evaluate_run (process_with (Some ct_shifted)) R.
  destruct (X2_every_byte_stored_once ResliceExecute ShiftScalePixel MathPixel (Q2Qc 0)
              (process_with (Some ct_shifted)) _ _ _ R ltac:(vm_compute; discriminate))
    as (K & _ & _).
  split; [|vm_compute; reflexivity].
  vm_compute in K |- *. exact K.
Defined.

(** The volume of 103 x 3 x 2 voxels: all 618 scalars of the mask are 0 or
    255. *)
Lemma X3_witness :
  exists c w t,
    run_exact (process_with (Some ct_surface)) = Some (c, w, t) /\
    List.length (Scalars (mask w)) = 618%nat /\
    Forall (fun s => s = d_of_int 0 \/ s = d_of_int 255) (Scalars (mask w)).
Proof.
  evaluate_run (process_with (Some ct_surface)) R.
  split; [vm_compute; reflexivity|].
  refine (proj1 (X3_mask_is_binary ResliceExecute ShiftScalePixel MathPixel (Q2Qc 0)
                   (process_with (Some ct_surface)) _ _ _ R _ _ _));
    vm_compute; discriminate.
Defined.

(** The same volume: voxels (51, 2, 0) and (51, 2, 1), at offsets 257 and
    566, both hold 255. *)
Lemma X4_witness :
  exists c w t,
    run_exact (process_with (Some ct_surface)) = Some (c, w, t) /\
    nth_error (Scalars (mask w)) 257 = nth_error (Scalars (mask w)) 566 /\
    nth_error (Scalars (mask w)) 257 = Some (d_of_int 255).
Proof.
  evaluate_run (process_with (Some ct_surface)) R.
  split; [|vm_compute; reflexivity].
  refine (X4_mask_constant_along_z ResliceExecute ShiftScalePixel MathPixel (Q2Qc 0)
            (process_with (Some ct_surface)) ct_surface _ _ _ 51 2 0 1 eq_refl R _ _);
    unfold in_volume; simpl; lia.
Defined.

(** Two volumes of the same geometry, one of doubles 1, 2, 3, 4 and one
    of shorts 9, 8, 7, 6. *)
Lemma X5_witness :
  exists c w t,
    run_exact (process_with (Some ct_shifted)) = Some (c, w, t) /\
    Scalars ct_shifted <> Scalars ct_shifted_short /\
    exists w', run_exact (process_with (Some ct_shifted_short)) = Some (c, w', t) /\
               mask w' = mask w.
Proof.
  evaluate_run (process_with (Some ct_shifted)) R.
  split.
  - intros E. apply (f_equal (fun l => map (fun q => Qnum (this q)) l)) in E.
    vm_compute in E. discriminate.
  - destruct (X5_mask_depends_on_geometry_only ResliceExecute ShiftScalePixel MathPixel
                (Q2Qc 0) (process_with (Some ct_shifted))
                (process_with (Some ct_shifted_short)) ct_shifted ct_shifted_short
                _ _ _ eq_refl eq_refl eq_refl eq_refl eq_refl R) as (w' & R' & M & _).
    exists w'. split; assumption.
Defined.

(** A process whose input file is missing. *)
Lemma X6_witness :
  exists c w t,
    run_exact (process_with None) = Some (c, w, t) /\
    stores t = [] /\ Scalars (mask w) = [] /\ ptr w = Null.
Proof.
  destruct (X6_unreadable_file_gives_empty_mask ResliceExecute ShiftScalePixel MathPixel
              (Q2Qc 0) (process_with None) eq_refl)
    as (c & w & t & R & S & M & _ & P & _).
  exists c, w, t. repeat split; assumption.
Defined.

(** The volume of 103 x 3 x 2 voxels has origin (0, 0, 0) and an extent
    that starts at (0, 0, 0). *)
Lemma X7_witness :
  exists c w t,
    run_exact (process_with (Some ct_surface)) = Some (c, w, t) /\
    IndexToPhysical (mask w) 5 1 1 = IndexToPhysical ct_surface 5 1 1.
Proof.
  evaluate_run (process_with (Some ct_surface)) R.
  exact (X7_mask_coincides_when_origin_is_extent_minimum ResliceExecute ShiftScalePixel
           MathPixel (Q2Qc 0) (process_with (Some ct_surface)) ct_surface _ _ _
           eq_refl R eq_refl 5 1 1).
Defined.

(** The volume of shorts: the scaled mask is an image of shorts. *)
Lemma X8_witness :
  exists c w t,
    run_exact (process_with (Some ct_shifted_short)) = Some (c, w, t) /\
    ScalarTypeOf (mask w) = VTK_UNSIGNED_CHAR /\
    ScalarTypeOf (ShiftScaleOutput (shiftScale w)) = VTK_SHORT.
Proof.
  evaluate_run (process_with (Some ct_shifted_short)) R.
  split; [vm_compute; reflexivity|].
  destruct (X8_scaled_mask_has_type_of_volume_slice ResliceExecute ShiftScalePixel
              MathPixel (Q2Qc 0) (process_with (Some ct_shifted_short)) _ _ _ R)
    as (K & _).
  rewrite K. vm_compute. reflexivity.
Defined.

(** The volume of 2 x 2 x 1 voxels: center (11, 21, 30) and radius
    2/2.0 - 50 = -49; for voxel (0, 0, 0), 11^2 + 30^2 = 1021 is not above
    49^2 = 2401, and the mask holds 255. *)
Lemma X9_witness :
  exists c w t,
    run_exact (process_with (Some ct_shifted)) = Some (c, w, t) /\
    d_eqb (Radius (cylinder w)) (qc (-49)) = true /\
    nth_error (Scalars (mask w)) 0 = Some (qc 255).
Proof.
  evaluate_run (process_with (Some ct_shifted)) R.
  split; [vm_compute; reflexivity|].
  refine (eq_trans
            (proj2 (X9_mask_is_a_disc_of_the_index_plane ResliceExecute ShiftScalePixel
                      MathPixel (Q2Qc 0) (process_with (Some ct_shifted)) ct_shifted
                      _ _ _ 0 0 0 eq_refl R _) above_zero) _).
  - unfold in_volume. simpl. lia.
  - vm_compute. reflexivity.
Defined.

(** The volume of 2 x 2 x 1 voxels: the plane and the cylinder both go
    through (11, 21, 30). *)
Lemma X10_witness :
  exists c w t,
    run_exact (process_with (Some ct_shifted)) = Some (c, w, t) /\
    same_point (ResliceAxesOrigin (Params (reslice w))) (qc 11, qc 21, qc 30) = true /\
    ResliceAxesOrigin (Params (reslice w)) = Center (cylinder w).
Proof.
  evaluate_run (process_with (Some ct_shifted)) R.
  split; [vm_compute; reflexivity|].
  exact (proj1 (X10_both_slices_through_cylinder_center ResliceExecute ShiftScalePixel
                  MathPixel (Q2Qc 0) (process_with (Some ct_shifted)) ct_shifted
                  _ _ _ eq_refl R)).
Defined.
